(** * Verification model of the workout routes of the API
    (apps/api/src/routes/workouts.ts and apps/api/src/routes/auth.ts).

    The routes are modelled as pure functions over an explicit database
    state (the three Prisma tables Workout, Exercise, WorkoutLog), the
    JSON request body, the server clock and the server time zone. *)

From Stdlib Require Import ZArith List String Ascii Bool Lia.
Import ListNotations.
Set Warnings "-register-all".
Open Scope string_scope.
Open Scope list_scope.
Open Scope Z_scope.

(* ------------------------------------------------------------------ *)
(** ** JavaScript numbers, strings and parseInt *)

(** The result of [parseInt]: an integer, or NaN when no digit is read. *)
Inductive jsnum := Num (n : Z) | NaN.

(** A finite JavaScript number (a double), written as the decimal
    [mant * 10^exp10].  A finite double is identified by the shortest
    decimal that reads back as it, whose digits [Number.prototype.toString]
    prints; every function below depends only on the value
    [mant * 10^exp10], not on how it is spelled.  (A JSON literal beyond
    the range of doubles, which [JSON.parse] reads as an infinity, is not
    covered.) *)
Record number := mk_number { mant : Z; exp10 : Z }.

(** The number equal to the integer [n]. *)
Definition int (n : Z) : number := mk_number n 0.

(** The integer a number is equal to, if it is one. *)
Definition number_int (x : number) : option Z :=
  if 0 <=? exp10 x then Some (mant x * 10 ^ exp10 x)
  else if mant x mod 10 ^ (- exp10 x) =? 0
  then Some (mant x / 10 ^ (- exp10 x))
  else None.

Definition digit_char (d : Z) : ascii := ascii_of_nat (48 + Z.to_nat d).

(** Decimal digits of a positive integer, most significant first; the fuel
    [Pos.size_nat p] (the bit length) bounds the number of decimal digits. *)
Fixpoint decimal_digits (fuel : nat) (n : Z) (acc : string) : string :=
  match fuel with
  | O => acc
  | S f =>
      let acc' := String (digit_char (n mod 10)) acc in
      if n / 10 =? 0 then acc' else decimal_digits f (n / 10) acc'
  end.

(** The decimal numeral of an integer, with a minus sign if negative. *)
Definition decimal_string (z : Z) : string :=
  match z with
  | Z0 => "0"
  | Zpos p => decimal_digits (Pos.size_nat p) z ""
  | Zneg p => append "-" (decimal_digits (Pos.size_nat p) (Zpos p) "")
  end.

Fixpoint zeros (n : nat) : string :=
  match n with
  | O => ""
  | S k => String "0" (zeros k)
  end.

(** [m * 10^e] with the trailing zeros of [m] moved into the exponent. *)
Fixpoint strip_zeros (fuel : nat) (m e : Z) : Z * Z :=
  match fuel with
  | O => (m, e)
  | S f => if m mod 10 =? 0 then strip_zeros f (m / 10) (e + 1) else (m, e)
  end.

(** Steps 5 to 10 of [Number::toString(x)] (ECMA-262, radix 10) for
    [x = s * 10^e > 0], [s] without trailing zero: [s] has [k] digits and
    [x = s * 10^(n-k)]. *)
Definition positive_to_string (s e : Z) : string :=
  let ds := decimal_string s in
  let k := Z.of_nat (String.length ds) in
  let n := e + k in
  if (k <=? n) && (n <=? 21) then append ds (zeros (Z.to_nat (n - k)))
  else if (0 <? n) && (n <=? 21) then
    append (substring 0 (Z.to_nat n) ds)
           (String "." (substring (Z.to_nat n) (Z.to_nat (k - n)) ds))
  else if (-6 <? n) && (n <=? 0) then
    append "0." (append (zeros (Z.to_nat (- n))) ds)
  else
    let sign := if n - 1 <? 0 then "-" else "+" in
    let expo := append sign (decimal_string (Z.abs (n - 1))) in
    if k =? 1 then append ds (String "e" expo)
    else append (substring 0 1 ds)
           (String "." (append (substring 1 (Z.to_nat (k - 1)) ds)
                               (String "e" expo))).

(** [Number.prototype.toString()], i.e. [String(x)]: zero is ["0"], a
    negative number is ["-"] and the string of its opposite. *)
Definition number_to_string (x : number) : string :=
  match mant x with
  | Z0 => "0"
  | Zpos p =>
      let '(s, e) := strip_zeros (Pos.size_nat p) (Zpos p) (exp10 x) in
      positive_to_string s e
  | Zneg p =>
      let '(s, e) := strip_zeros (Pos.size_nat p) (Zpos p) (exp10 x) in
      append "-" (positive_to_string s e)
  end.

(** [Array.prototype.join(sep)] on an array of numbers. *)
Fixpoint join (sep : string) (l : list string) : string :=
  match l with
  | [] => ""
  | [x] => x
  | x :: rest => append x (append sep (join sep rest))
  end.

(** [String.prototype.split(c)] for a one-character separator: the empty
    string splits into [[""]], and every separator closes a piece. *)
Fixpoint split_acc (c : ascii) (s : string) (cur : string) : list string :=
  match s with
  | EmptyString => [cur]
  | String a rest =>
      if Ascii.eqb a c then cur :: split_acc c rest ""
      else split_acc c rest (append cur (String a ""))
  end.

Definition split (c : ascii) (s : string) : list string := split_acc c s "".

(** [parseInt(s)] with the default radix: leading white space is skipped,
    an optional sign is read, a [0x]/[0X] prefix selects radix 16, and the
    longest prefix of digits is read; no digit gives NaN. *)
Definition is_js_space (a : ascii) : bool :=
  match nat_of_ascii a with
  | 9 | 10 | 11 | 12 | 13 | 32 | 160 => true
  | _ => false
  end%nat.

Fixpoint skip_space (s : string) : string :=
  match s with
  | String a rest => if is_js_space a then skip_space rest else s
  | EmptyString => s
  end.

Definition digit_value (radix : Z) (a : ascii) : option Z :=
  let n := Z.of_nat (nat_of_ascii a) in
  let v := if (48 <=? n) && (n <=? 57) then Some (n - 48)
           else if (97 <=? n) && (n <=? 122) then Some (n - 87)
           else if (65 <=? n) && (n <=? 90) then Some (n - 55)
           else None in
  match v with
  | Some d => if d <? radix then Some d else None
  | None => None
  end.

(** Reads digits of [radix]; [acc] is [None] until the first digit. *)
Fixpoint read_digits (radix : Z) (s : string) (acc : option Z) : option Z :=
  match s with
  | EmptyString => acc
  | String a rest =>
      match digit_value radix a with
      | Some d =>
          let v := match acc with Some x => x | None => 0 end in
          read_digits radix rest (Some (v * radix + d))
      | None => acc
      end
  end.

Definition parse_int (s0 : string) : jsnum :=
  let s1 := skip_space s0 in
  let '(sign, s2) :=
    match s1 with
    | String "-" rest => (-1, rest)
    | String "+" rest => (1, rest)
    | _ => (1, s1)
    end in
  let '(radix, s3) :=
    match s2 with
    | String "0" (String "x" rest) => (16, rest)
    | String "0" (String "X" rest) => (16, rest)
    | _ => (10, s2)
    end in
  match read_digits radix s3 None with
  | Some v => Num (sign * v)
  | None => NaN
  end.

(* ------------------------------------------------------------------ *)
(** ** Persisted schedule days *)

(** [workoutData.schedule.days.join(',')] in [POST /]. *)
Definition serialize_days (days : list number) : string :=
  join "," (map number_to_string days).

(** [workout.scheduleDays.split(',').map(day => parseInt(day))] in
    [parseWorkoutScheduleDays]. *)
Definition parse_days (scheduleDays : string) : list jsnum :=
  map parse_int (split "," scheduleDays).

(* ------------------------------------------------------------------ *)
(** ** JavaScript [Date] *)

(** A [Date] holds a time value: milliseconds since 1970-01-01T00:00Z. *)
Definition ms_per_day : Z := 86400000.
Definition ms_per_hour : Z := 3600000.

(** The server's local time zone: a standard offset and a daylight-saving
    offset (milliseconds to add to UTC), daylight time being in force for
    UTC instants in [[dst_start, dst_end)].  A zone without daylight time
    has [dst_start = dst_end]. *)
Record zone := {
  std_off : Z;
  dst_off : Z;
  dst_start : Z;
  dst_end : Z
}.

(** The offset in force at a UTC instant. *)
Definition offset_at (z : zone) (t : Z) : Z :=
  if (dst_start z <=? t) && (t <? dst_end z) then dst_off z else std_off z.

(** LocalTime(t). *)
Definition local_time (z : zone) (t : Z) : Z := t + offset_at z t.

(** UTC(t) of ECMAScript for a local time [l]: of the readings of [l] the
    earliest consistent one is taken (repeated hour), and a local time in
    the skipped hour is read with the offset in force before the
    transition. *)
Definition utc_of_local (z : zone) (l : Z) : Z :=
  let a := l - dst_off z in
  if offset_at z a =? dst_off z then a else l - std_off z.

(** Day(t), TimeWithinDay(t) and WeekDay(t) (1970-01-01 was a Thursday). *)
Definition day_of (t : Z) : Z := t / ms_per_day.
Definition time_within_day (t : Z) : Z := t mod ms_per_day.
Definition week_day (t : Z) : Z := (day_of t + 4) mod 7.

(** Day number of a proleptic Gregorian date (days since 1970-01-01). *)
Definition days_from_civil (y m d : Z) : Z :=
  let y' := if m <=? 2 then y - 1 else y in
  let era := y' / 400 in
  let yoe := y' - era * 400 in
  let mp := (m + 9) mod 12 in
  let doy := (153 * mp + 2) / 5 + d - 1 in
  let doe := yoe * 365 + yoe / 4 - yoe / 100 + doy in
  era * 146097 + doe - 719468.

(** Year, month (1..12) and day of month (1..31) of a day number. *)
Definition civil_from_days (n : Z) : Z * Z * Z :=
  let z' := n + 719468 in
  let era := z' / 146097 in
  let doe := z' - era * 146097 in
  let yoe := (doe - doe / 1460 + doe / 36524 - doe / 146096) / 365 in
  let y := yoe + era * 400 in
  let doy := doe - (365 * yoe + yoe / 4 - yoe / 100) in
  let mp := (5 * doy + 2) / 153 in
  let d := doy - (153 * mp + 2) / 5 + 1 in
  let m := if mp <? 10 then mp + 3 else mp - 9 in
  (if m <=? 2 then y + 1 else y, m, d).

(** [new Date("YYYY-MM-DD")]: a date-only ISO string is read as UTC
    midnight. *)
Definition date_of_iso (y m d : Z) : Z := days_from_civil y m d * ms_per_day.

(** [date.getDay()] and [date.getDate()]: local weekday and day of month. *)
Definition getDay (z : zone) (t : Z) : Z := week_day (local_time z t).

Definition getDate (z : zone) (t : Z) : Z :=
  let '(_, _, d) := civil_from_days (day_of (local_time z t)) in d.

(** [date.setDate(n)]: MakeDay(YearFromTime(lt), MonthFromTime(lt), n)
    with the local time of day kept, converted back to UTC. *)
Definition setDate (z : zone) (t : Z) (n : Z) : Z :=
  let lt := local_time z t in
  let '(y, m, _) := civil_from_days (day_of lt) in
  utc_of_local z ((days_from_civil y m 1 + n - 1) * ms_per_day
                  + time_within_day lt).

(** [date.setHours(h, mi, s, ms)]: local day kept, local time replaced. *)
Definition setHours (z : zone) (t : Z) (h mi s ms : Z) : Z :=
  let lt := local_time z t in
  utc_of_local z (day_of lt * ms_per_day + h * ms_per_hour
                  + mi * 60000 + s * 1000 + ms).

(** [date.setUTCHours(h, mi, s, ms)]. *)
Definition setUTCHours (t : Z) (h mi s ms : Z) : Z :=
  day_of t * ms_per_day + h * ms_per_hour + mi * 60000 + s * 1000 + ms.

(** [date.toISOString().split('T')[0]], as year, month and day. *)
Definition iso_date (t : Z) : Z * Z * Z := civil_from_days (day_of t).

(** Zones used in the examples: UTC, America/Sao_Paulo (UTC-3, no daylight
    time since 2019) and America/New_York in 2024 (EST, EDT from
    2024-03-10 02:00 EST to 2024-11-03 02:00 EDT). *)
Definition utc_zone : zone :=
  {| std_off := 0; dst_off := 0; dst_start := 0; dst_end := 0 |}.

Definition sao_paulo : zone :=
  {| std_off := -3 * ms_per_hour; dst_off := -2 * ms_per_hour;
     dst_start := 0; dst_end := 0 |}.

Definition new_york_2024 : zone :=
  {| std_off := -5 * ms_per_hour; dst_off := -4 * ms_per_hour;
     dst_start := date_of_iso 2024 3 10 + 7 * ms_per_hour;
     dst_end := date_of_iso 2024 11 3 + 6 * ms_per_hour |}.

(* ------------------------------------------------------------------ *)
(** ** JSON values (request bodies and the [exercises] Json column) *)

Inductive jval :=
| JNull
| JBool (b : bool)
| JNum (x : number)
| JStr (s : string)
| JArr (items : list jval)
| JObj (fields : list (string * jval)).

(** [obj[key]]: [None] is [undefined]; of duplicated keys, [JSON.parse]
    keeps the last. *)
Definition jget (key : string) (v : jval) : option jval :=
  match v with
  | JObj fields =>
      match find (fun kv => String.eqb (fst kv) key) (rev fields) with
      | Some (_, x) => Some x
      | None => None
      end
  | _ => None
  end.

(** JavaScript truthiness of a (possibly undefined) value. *)
Definition truthy (v : option jval) : bool :=
  match v with
  | None | Some JNull => false
  | Some (JBool b) => b
  | Some (JNum x) => negb (mant x =? 0)
  | Some (JStr s) => negb (String.eqb s "")
  | Some (JArr _) | Some (JObj _) => true
  end.

(* ------------------------------------------------------------------ *)
(** ** The Prisma schema (schema.prisma) *)

Module Exercise.
Record t := {
  id : Z;
  name : string;
  sets : number;
  reps : number;
  weight : number;
  progress : Z;
  notes : option string;
  workoutId : Z
}.
End Exercise.

Module Workout.
Record t := {
  id : Z;
  name : string;
  category : string;
  userId : Z;
  scheduleType : string;
  scheduleDays : string;
  frequency : number
}.
End Workout.

Module WorkoutLog.
Record t := {
  id : Z;
  userId : Z;
  workoutId : Z;
  date : Z;
  exercises : jval
}.
End WorkoutLog.

(** The database: each table in rowid (= autoincremented id) order, with the
    next id of each table. *)
Record db := {
  workouts : list Workout.t;
  exercises : list Exercise.t;
  logs : list WorkoutLog.t;
  next_workout_id : Z;
  next_exercise_id : Z;
  next_log_id : Z
}.

(** [include: { exercises: true }]. *)
Definition exercises_of (st : db) (wid : Z) : list Exercise.t :=
  filter (fun e => Exercise.workoutId e =? wid) (exercises st).

(* ------------------------------------------------------------------ *)
(** ** Day resolution: the [findFirst] of [GET /date/:date] and
       [GET /week/:date] *)

(** Prisma's [contains] filter on a String column (SQL [LIKE '%p%']). *)
Fixpoint str_contains (s p : string) : bool :=
  prefix p s ||
  match s with
  | EmptyString => false
  | String _ rest => str_contains rest p
  end.

(** The [where] clause, for the weekday [dayOfWeek]:
    [OR: [{scheduleType: 'daily'},
          {AND: [{scheduleType: 'weekly'},
                 {scheduleDays: {contains: dayOfWeek.toString()}}]}]]. *)
Definition schedule_matches (dayOfWeek : Z) (w : Workout.t) : bool :=
  String.eqb (Workout.scheduleType w) "daily"
  || (String.eqb (Workout.scheduleType w) "weekly"
      && str_contains (Workout.scheduleDays w)
                      (number_to_string (int dayOfWeek))).

Definition owned_match (uid dayOfWeek : Z) (w : Workout.t) : bool :=
  (Workout.userId w =? uid) && schedule_matches dayOfWeek w.

(** [prisma.workout.findFirst({ where: { userId, OR: ... } })]: no
    [orderBy], so SQLite scans the table in rowid order and the first row
    satisfying the filter is returned. *)
Definition find_first_scheduled (st : db) (uid dayOfWeek : Z)
  : option Workout.t :=
  find (owned_match uid dayOfWeek) (workouts st).

(** Response of [GET /date/:date]: [{ date, category, exercises }]. *)
Record date_response := {
  dr_date : Z * Z * Z;
  dr_category : string;
  dr_exercises : list Exercise.t
}.

Definition date_response_for (st : db) (uid dayOfWeek : Z) (date : Z * Z * Z)
  : date_response :=
  match find_first_scheduled st uid dayOfWeek with
  | None => {| dr_date := date; dr_category := "Rest"; dr_exercises := [] |}
  | Some w => {| dr_date := date; dr_category := Workout.category w;
                 dr_exercises := exercises_of st (Workout.id w) |}
  end.

(** [GET /date/:date] for a date [YYYY-MM-DD]: [new Date(date).getDay()]. *)
Definition get_date_route (z : zone) (st : db) (uid : Z) (y m d : Z)
  : date_response :=
  date_response_for st uid (getDay z (date_of_iso y m d)) (y, m, d).

(** One entry of [GET /week/:date]:
    [{ id: workout?.id || null, date,
       category: workout?.category || 'Rest',
       exercises: workout?.exercises || [] }]. *)
Record day_entry := {
  de_id : option Z;
  de_date : Z * Z * Z;
  de_category : string;
  de_exercises : list Exercise.t
}.

Definition day_entry_for (st : db) (uid dayOfWeek : Z) (date : Z * Z * Z)
  : day_entry :=
  match find_first_scheduled st uid dayOfWeek with
  | None => {| de_id := None; de_date := date; de_category := "Rest";
               de_exercises := [] |}
  | Some w =>
      {| de_id := if Workout.id w =? 0 then None else Some (Workout.id w);
         de_date := date;
         de_category := if String.eqb (Workout.category w) "" then "Rest"
                        else Workout.category w;
         de_exercises := exercises_of st (Workout.id w) |}
  end.

(** [GET /week/:date] for a date that passed the [YYYY-MM-DD] regex and the
    [isNaN] check: [startDate.setUTCHours(0, 0, 0, 0)], then for [i] from 0
    to 6 a copy of [startDate] with [setDate(startDate.getDate() + i)]. *)
Definition week_route (z : zone) (st : db) (uid : Z) (y m d : Z)
  : list day_entry :=
  let startDate := setUTCHours (date_of_iso y m d) 0 0 0 0 in
  map (fun i =>
         let currentDate := setDate z startDate (getDate z startDate + i) in
         let dayOfWeek := getDay z currentDate in
         day_entry_for st uid dayOfWeek (iso_date currentDate))
      (map Z.of_nat (seq 0 7)).

(* ------------------------------------------------------------------ *)
(** ** Prisma writes *)

(** Errors a Prisma call raises here: a record to delete is absent (P2025),
    a foreign key is violated (the relations are [ON DELETE RESTRICT],
    P2003), or an argument is rejected before the query (a missing required
    field, an [Int] that is NaN, an Invalid Date). *)
Inductive prisma_error := RecordNotFound | ForeignKeyViolation | InvalidArgument.

Inductive presult (A : Type) :=
| POk (x : A)
| PErr (e : prisma_error).
Arguments POk {A} x.
Arguments PErr {A} e.

Definition set_workouts (st : db) (ws : list Workout.t) : db :=
  {| workouts := ws; exercises := exercises st; logs := logs st;
     next_workout_id := next_workout_id st;
     next_exercise_id := next_exercise_id st; next_log_id := next_log_id st |}.

Definition set_exercises (st : db) (es : list Exercise.t) : db :=
  {| workouts := workouts st; exercises := es; logs := logs st;
     next_workout_id := next_workout_id st;
     next_exercise_id := next_exercise_id st; next_log_id := next_log_id st |}.

Definition set_logs (st : db) (ls : list WorkoutLog.t) : db :=
  {| workouts := workouts st; exercises := exercises st; logs := ls;
     next_workout_id := next_workout_id st;
     next_exercise_id := next_exercise_id st; next_log_id := next_log_id st |}.

Definition workout_exists (st : db) (wid : Z) : bool :=
  existsb (fun w => Workout.id w =? wid) (workouts st).

(** [prisma.exercise.deleteMany({ where: { workoutId } })]. *)
Definition exercise_deleteMany (wid : Z) (st : db) : db :=
  set_exercises st (filter (fun e => negb (Exercise.workoutId e =? wid))
                           (exercises st)).

(** [prisma.workoutLog.deleteMany({ where: { workoutId } })]. *)
Definition workoutLog_deleteMany (wid : Z) (st : db) : db :=
  set_logs st (filter (fun l => negb (WorkoutLog.workoutId l =? wid))
                      (logs st)).

(** [prisma.workout.delete({ where: { id } })]: the row must exist, and no
    Exercise or WorkoutLog may still reference it. *)
Definition workout_delete (wid : Z) (st : db) : presult db :=
  if negb (workout_exists st wid) then PErr RecordNotFound
  else if existsb (fun e => Exercise.workoutId e =? wid) (exercises st)
          || existsb (fun l => WorkoutLog.workoutId l =? wid) (logs st)
  then PErr ForeignKeyViolation
  else POk (set_workouts st (filter (fun w => negb (Workout.id w =? wid))
                                    (workouts st))).

(** [prisma.workoutLog.create]: [workoutId] must reference a Workout (the
    [userId] comes from the verified token and references the caller). *)
Definition workoutLog_create (st : db) (uid wid date : Z) (ex : jval)
  : presult (db * WorkoutLog.t) :=
  if negb (workout_exists st wid) then PErr ForeignKeyViolation
  else
    let l := {| WorkoutLog.id := next_log_id st; WorkoutLog.userId := uid;
                WorkoutLog.workoutId := wid; WorkoutLog.date := date;
                WorkoutLog.exercises := ex |} in
    POk ({| workouts := workouts st; exercises := exercises st;
            logs := app (logs st) [l];
            next_workout_id := next_workout_id st;
            next_exercise_id := next_exercise_id st;
            next_log_id := next_log_id st + 1 |}, l).

(* ------------------------------------------------------------------ *)
(** ** [DELETE /:id] *)

(** workouts.ts: the exercises are deleted, then the workout, as two
    separate queries; an error in the second leaves the first applied. *)
Definition delete_workout_route (st : db) (uid : Z) (id : string) : Z * db :=
  match parse_int id with
  | NaN => (500, st)
  | Num wid =>
      let st1 := exercise_deleteMany wid st in
      match workout_delete wid st1 with
      | POk st2 => (200, st2)
      | PErr _ => (500, st1)
      end
  end.

(** auth.ts: ownership check, then the three deletions in one
    [prisma.$transaction], rolled back as a whole on error. *)
Definition delete_workout_tx_route (st : db) (uid : Z) (id : string) : Z * db :=
  match parse_int id with
  | NaN => (500, st)
  | Num wid =>
      if negb (existsb (fun w => (Workout.id w =? wid) && (Workout.userId w =? uid))
                       (workouts st))
      then (404, st)
      else
        let st1 := workoutLog_deleteMany wid st in
        let st2 := exercise_deleteMany wid st1 in
        match workout_delete wid st2 with
        | POk st3 => (200, st3)
        | PErr _ => (500, st)
        end
  end.

(* ------------------------------------------------------------------ *)
(** ** Logging a session *)

(** [String(v)], used by [parseInt(workoutId)]. *)
Fixpoint js_string_of (v : jval) : string :=
  match v with
  | JNull => "null"
  | JBool true => "true"
  | JBool false => "false"
  | JNum x => number_to_string x
  | JStr s => s
  | JArr items =>
      join "," (map (fun x => match x with JNull => "" | _ => js_string_of x end)
                    items)
  | JObj _ => "[object Object]"
  end.

(** The required Json column [exercises]: Prisma rejects [undefined] (a
    missing argument) and stores any JSON value, [null] as JSON null. *)
Definition json_column (v : option jval) : option jval :=
  match v with
  | None => None
  | Some x => Some x
  end.

(** Result of a logging route: status, database after, created row. *)
Definition log_response := (Z * db * option WorkoutLog.t)%type.

(** [POST /:id/log]: [date: new Date()], the server clock [now]. *)
Definition log_workout_route (now : Z) (st : db) (uid : Z) (id : string)
  (body : jval) : log_response :=
  match parse_int id, json_column (jget "exercises" body) with
  | Num wid, Some ex =>
      match workoutLog_create st uid wid now ex with
      | POk (st', l) => (200, st', Some l)
      | PErr _ => (500, st, None)
      end
  | _, _ => (500, st, None)
  end.

Section PostLogs.
(** [new Date(date)] on the request value: [None] is an Invalid Date.
    Parsing of arbitrary strings is left to the JavaScript engine. *)
Variable new_date : jval -> option Z.

(** [POST /logs]. *)
Definition post_logs_route (st : db) (uid : Z) (body : jval) : log_response :=
  let date := jget "date" body in
  let exercises := jget "exercises" body in
  let workoutId := jget "workoutId" body in
  if negb (truthy date && truthy exercises && truthy workoutId)
  then (400, st, None)
  else
    match date, exercises, workoutId with
    | Some dv, Some ex, Some wv =>
        match new_date dv, parse_int (js_string_of wv) with
        | Some t, Num wid =>
            match workoutLog_create st uid wid t ex with
            | POk (st', l) => (200, st', Some l)
            | PErr _ => (500, st, None)
            end
        | _, _ => (500, st, None)
        end
    | _, _, _ => (400, st, None)
    end.
End PostLogs.

(* ------------------------------------------------------------------ *)
(** ** [GET /logs/:date] *)

(** [orderBy: { date: 'desc' }]. *)
Fixpoint insert_desc (l : WorkoutLog.t) (ls : list WorkoutLog.t)
  : list WorkoutLog.t :=
  match ls with
  | [] => [l]
  | x :: rest =>
      if WorkoutLog.date x <? WorkoutLog.date l then l :: ls
      else x :: insert_desc l rest
  end.

Definition sort_date_desc (ls : list WorkoutLog.t) : list WorkoutLog.t :=
  fold_right insert_desc [] ls.

(** [include: { workout: { select: { name: true, category: true } } }]. *)
Definition workout_projection (st : db) (wid : Z) : option (string * string) :=
  match find (fun w => Workout.id w =? wid) (workouts st) with
  | Some w => Some (Workout.name w, Workout.category w)
  | None => None
  end.

(** The day window: [targetDate = new Date(date)], then
    [targetDate.setHours(0, 0, 0, 0)], and [endDate] a copy with
    [setHours(23, 59, 59, 999)]. *)
Definition day_window (z : zone) (y m d : Z) : Z * Z :=
  let targetDate := setHours z (date_of_iso y m d) 0 0 0 0 in
  let endDate := setHours z targetDate 23 59 59 999 in
  (targetDate, endDate).

Definition in_window (uid : Z) (w : Z * Z) (l : WorkoutLog.t) : bool :=
  (WorkoutLog.userId l =? uid) && (fst w <=? WorkoutLog.date l)
  && (WorkoutLog.date l <=? snd w).

(** [GET /logs/:date] for a date that passed the [YYYY-MM-DD] regex. *)
Definition logs_for_date_route (z : zone) (st : db) (uid : Z) (y m d : Z)
  : list (WorkoutLog.t * option (string * string)) :=
  map (fun l => (l, workout_projection st (WorkoutLog.workoutId l)))
      (sort_date_desc (filter (in_window uid (day_window z y m d)) (logs st))).

(* ------------------------------------------------------------------ *)
(** ** [workoutSchema] (zod) and [POST /] *)

(** A zod issue is reported with its path. *)
Inductive pseg := PKey (k : string) | PIdx (i : nat).
Definition zpath := list pseg.

(** The path of a child value. *)
Definition zchild (path : zpath) (s : pseg) : zpath := app path [s].

Inductive zres (A : Type) :=
| ZOk (a : A)
| ZErr (issues : list zpath).
Arguments ZOk {A} a.
Arguments ZErr {A} issues.

(** Issues of all fields of an object are collected. *)
Definition zap {A B : Type} (f : zres (A -> B)) (x : zres A) : zres B :=
  match f, x with
  | ZOk g, ZOk a => ZOk (g a)
  | ZOk _, ZErr e => ZErr e
  | ZErr e, ZOk _ => ZErr e
  | ZErr e1, ZErr e2 => ZErr (app e1 e2)
  end.

Definition z_string (path : zpath) (v : option jval) : zres string :=
  match v with Some (JStr s) => ZOk s | _ => ZErr [path] end.

Definition z_number (path : zpath) (v : option jval) : zres number :=
  match v with Some (JNum x) => ZOk x | _ => ZErr [path] end.

Definition z_enum (opts : list string) (path : zpath) (v : option jval)
  : zres string :=
  match v with
  | Some (JStr s) => if existsb (String.eqb s) opts then ZOk s else ZErr [path]
  | _ => ZErr [path]
  end.

Definition z_optional_string (path : zpath) (v : option jval)
  : zres (option string) :=
  match v with
  | None => ZOk None
  | Some (JStr s) => ZOk (Some s)
  | Some _ => ZErr [path]
  end.

Fixpoint z_items {A : Type} (elt : zpath -> option jval -> zres A)
  (path : zpath) (i : nat) (items : list jval) : zres (list A) :=
  match items with
  | [] => ZOk []
  | x :: rest =>
      zap (zap (ZOk cons) (elt (zchild path (PIdx i)) (Some x)))
          (z_items elt path (S i) rest)
  end.

Definition z_array {A : Type} (elt : zpath -> option jval -> zres A)
  (path : zpath) (v : option jval) : zres (list A) :=
  match v with
  | Some (JArr items) => z_items elt path 0 items
  | _ => ZErr [path]
  end.

Record exercise_input := {
  xi_name : string; xi_sets : number; xi_reps : number; xi_weight : number;
  xi_notes : option string
}.

Record schedule_input := {
  sc_type : string; sc_days : list number; sc_frequency : number
}.

Record workout_input := {
  wi_name : string; wi_category : string;
  wi_exercises : list exercise_input; wi_schedule : schedule_input
}.

Definition z_exercise (path : zpath) (v : option jval) : zres exercise_input :=
  match v with
  | Some (JObj _ as o) =>
      zap (zap (zap (zap (zap (ZOk Build_exercise_input)
        (z_string (zchild path (PKey "name")) (jget "name" o)))
        (z_number (zchild path (PKey "sets")) (jget "sets" o)))
        (z_number (zchild path (PKey "reps")) (jget "reps" o)))
        (z_number (zchild path (PKey "weight")) (jget "weight" o)))
        (z_optional_string (zchild path (PKey "notes")) (jget "notes" o))
  | _ => ZErr [path]
  end.

Definition z_schedule (path : zpath) (v : option jval) : zres schedule_input :=
  match v with
  | Some (JObj _ as o) =>
      zap (zap (zap (ZOk Build_schedule_input)
        (z_enum ["weekly"; "daily"] (zchild path (PKey "type")) (jget "type" o)))
        (z_array z_number (zchild path (PKey "days")) (jget "days" o)))
        (z_number (zchild path (PKey "frequency")) (jget "frequency" o))
  | _ => ZErr [path]
  end.

(** [workoutSchema.parse(req.body)] of workouts.ts. *)
Definition workoutSchema_parse (body : jval) : zres workout_input :=
  match body with
  | JObj _ =>
      zap (zap (zap (zap (ZOk Build_workout_input)
        (z_string [PKey "name"] (jget "name" body)))
        (z_enum ["Push"; "Pull"; "Legs"; "Upper"; "Lower"] [PKey "category"]
                (jget "category" body)))
        (z_array z_exercise [PKey "exercises"] (jget "exercises" body)))
        (z_schedule [PKey "schedule"] (jget "schedule" body))
  | _ => ZErr [[]]
  end.

(** Response of [parseWorkoutScheduleDays(workout)]: the row with [days],
    [type] and [frequency] added. *)
Record parsed_workout := {
  pw_workout : Workout.t;
  pw_exercises : list Exercise.t;
  pw_days : list jsnum;
  pw_type : string;
  pw_frequency : number
}.

Definition parseWorkoutScheduleDays (st : db) (w : Workout.t) : parsed_workout :=
  {| pw_workout := w; pw_exercises := exercises_of st (Workout.id w);
     pw_days := parse_days (Workout.scheduleDays w);
     pw_type := Workout.scheduleType w; pw_frequency := Workout.frequency w |}.

(** [GET /]. *)
Definition get_workouts_route (st : db) (uid : Z) : list parsed_workout :=
  map (parseWorkoutScheduleDays st)
      (filter (fun w => Workout.userId w =? uid) (workouts st)).

Inductive create_response :=
| CreateInvalid (issues : list zpath)   (* 400, ZodError *)
| CreateFailed                          (* 500 *)
| CreateOk (w : parsed_workout).        (* 200 *)

Section CreateWorkout.
(** Whether Prisma accepts a number for an [Int] column. *)
Variable prisma_int : number -> bool.

(** The [Int] columns written: [frequency], and [sets], [reps] of each
    exercise. *)
Definition input_ints_ok (d : workout_input) : bool :=
  prisma_int (sc_frequency (wi_schedule d))
  && forallb (fun x => prisma_int (xi_sets x) && prisma_int (xi_reps x))
             (wi_exercises d).

Fixpoint exercise_rows (wid next : Z) (xs : list exercise_input)
  : list Exercise.t :=
  match xs with
  | [] => []
  | x :: rest =>
      {| Exercise.id := next; Exercise.name := xi_name x;
         Exercise.sets := xi_sets x; Exercise.reps := xi_reps x;
         Exercise.weight := xi_weight x; Exercise.progress := 0;
         Exercise.notes := xi_notes x; Exercise.workoutId := wid |}
      :: exercise_rows wid (next + 1) rest
  end.

(** [prisma.workout.create] with the nested [exercises: { create }]. *)
Definition workout_create (st : db) (uid : Z) (d : workout_input)
  : presult (db * Workout.t) :=
  if negb (input_ints_ok d) then PErr InvalidArgument
  else
    let wid := next_workout_id st in
    let w := {| Workout.id := wid; Workout.name := wi_name d;
                Workout.category := wi_category d; Workout.userId := uid;
                Workout.scheduleType := sc_type (wi_schedule d);
                Workout.scheduleDays := serialize_days (sc_days (wi_schedule d));
                Workout.frequency := sc_frequency (wi_schedule d) |} in
    let es := exercise_rows wid (next_exercise_id st) (wi_exercises d) in
    POk ({| workouts := app (workouts st) [w];
            exercises := app (exercises st) es;
            logs := logs st;
            next_workout_id := wid + 1;
            next_exercise_id :=
              next_exercise_id st + Z.of_nat (List.length (wi_exercises d));
            next_log_id := next_log_id st |}, w).

(** [POST /]. *)
Definition create_workout_route (st : db) (uid : Z) (body : jval)
  : create_response * db :=
  match workoutSchema_parse body with
  | ZErr issues => (CreateInvalid issues, st)
  | ZOk d =>
      match workout_create st uid d with
      | POk (st', w) => (CreateOk (parseWorkoutScheduleDays st' w), st')
      | PErr _ => (CreateFailed, st)
      end
  end.
End CreateWorkout.

(* ------------------------------------------------------------------ *)
(** ** Sample rows *)

(** A Push workout of user 1 scheduled weekly on Fridays, with one
    exercise. *)
Definition friday_push : Workout.t :=
  {| Workout.id := 1; Workout.name := "Push day"; Workout.category := "Push";
     Workout.userId := 1; Workout.scheduleType := "weekly";
     Workout.scheduleDays := "5"; Workout.frequency := int 1 |}.

Definition bench_row : Exercise.t :=
  {| Exercise.id := 1; Exercise.name := "Bench"; Exercise.sets := int 3;
     Exercise.reps := int 10; Exercise.weight := int 80; Exercise.progress := 0;
     Exercise.notes := None; Exercise.workoutId := 1 |}.

Definition bench_result : jval :=
  JObj [("name", JStr "Bench"); ("sets", JNum (int 3));
        ("reps", JNum (int 10)); ("weight", JNum (int 80))].

Definition log_at (id wid t : Z) : WorkoutLog.t :=
  {| WorkoutLog.id := id; WorkoutLog.userId := 1; WorkoutLog.workoutId := wid;
     WorkoutLog.date := t; WorkoutLog.exercises := JArr [bench_result] |}.

Definition db_of (ws : list Workout.t) (es : list Exercise.t)
  (ls : list WorkoutLog.t) : db :=
  {| workouts := ws; exercises := es; logs := ls;
     next_workout_id := 1 + Z.of_nat (List.length ws);
     next_exercise_id := 1 + Z.of_nat (List.length es);
     next_log_id := 1 + Z.of_nat (List.length ls) |}.

Definition empty_db : db := db_of [] [] [].

(** User 1's database with the Friday workout, its exercise and [ls]. *)
Definition push_db (ls : list WorkoutLog.t) : db :=
  db_of [friday_push] [bench_row] ls.

(** 2024-03-14 and 2024-03-15 at 15:00 UTC (12:00 in Sao Paulo). *)
Definition thu_log : WorkoutLog.t :=
  log_at 1 1 (date_of_iso 2024 3 14 + 15 * ms_per_hour).
Definition fri_log : WorkoutLog.t :=
  log_at 2 1 (date_of_iso 2024 3 15 + 15 * ms_per_hour).

(** A well-formed [POST /workouts] body with the given schedule. *)
Definition workout_body (type : string) (days : list number) : jval :=
  JObj [("name", JStr "Legs"); ("category", JStr "Legs");
        ("exercises", JArr [bench_result]);
        ("schedule", JObj [("type", JStr type);
                           ("days", JArr (map JNum days));
                           ("frequency", JNum (int 1))])].

(** Prisma's [Int] is a signed 32-bit integer: a number that is not an
    integer, or out of that range, is rejected. *)
Definition int32 (x : number) : bool :=
  match number_int x with
  | Some n => (- 2147483648 <=? n) && (n <=? 2147483647)
  | None => false
  end.

(* ------------------------------------------------------------------ *)
(** ** Lemmas *)

Lemma find_app_first {A : Type} (f : A -> bool) (pre post : list A) (x : A) :
  (forall v, In v pre -> f v = false) -> f x = true ->
  find f (pre ++ x :: post) = Some x.
Proof.
  intros Hpre Hx. induction pre as [|v pre IH]; simpl.
  - now rewrite Hx.
  - rewrite (Hpre v (or_introl eq_refl)).
    apply IH. intros u Hu. apply Hpre. now right.
Qed.

Lemma find_none_all {A : Type} (f : A -> bool) (l : list A) :
  (forall v, In v l -> f v = false) -> find f l = None.
Proof.
  induction l as [|v l IH]; intros H; simpl; [reflexivity|].
  rewrite (H v (or_introl eq_refl)). apply IH. intros u Hu. apply H. now right.
Qed.

Lemma find_some_first {A : Type} (f : A -> bool) (l : list A) (x : A) :
  find f l = Some x ->
  exists pre post, l = pre ++ x :: post /\ f x = true
                   /\ forall v, In v pre -> f v = false.
Proof.
  induction l as [|v l IH]; simpl; intros H; [discriminate|].
  destruct (f v) eqn:Hv.
  - injection H as <-. exists [], l. repeat split; auto. intros u [].
  - destruct (IH H) as (pre & post & -> & Hx & Hpre).
    exists (v :: pre), post. repeat split; auto.
    intros u [<- | Hu]; auto.
Qed.

(* ------------------------------------------------------------------ *)
(** ** Schedule matching (C1) *)

(** Case split on a weekday [0 <= x <= 6]. *)
Ltac weekday_cases x H :=
  let Hc := fresh "Hc" in
  assert (x = 0 \/ x = 1 \/ x = 2 \/ x = 3 \/ x = 4 \/ x = 5 \/ x = 6)
    as Hc by lia;
  clear H; repeat destruct Hc as [-> | Hc]; try subst x.

Lemma contains_weekday_empty (k : Z) :
  0 <= k <= 6 -> str_contains "" (number_to_string (int k)) = false.
Proof. intros Hk. weekday_cases k Hk; reflexivity. Qed.

Lemma contains_weekday_last (k x : Z) :
  0 <= k <= 6 -> 0 <= x <= 6 ->
  str_contains (number_to_string (int x)) (number_to_string (int k)) = (k =? x).
Proof.
  intros Hk Hx. weekday_cases k Hk; weekday_cases x Hx; reflexivity.
Qed.

Lemma contains_weekday_cons (k x : Z) (rest : string) :
  0 <= k <= 6 -> 0 <= x <= 6 ->
  str_contains (append (number_to_string (int x)) (String "," rest))
               (number_to_string (int k))
  = (k =? x) || str_contains rest (number_to_string (int k)).
Proof.
  intros Hk Hx. weekday_cases k Hk; weekday_cases x Hx; reflexivity.
Qed.

(** The [contains] filter on [days.join(',')] is membership, for weekdays. *)
Lemma contains_weekday (ds : list Z) (k : Z) :
  Forall (fun x => 0 <= x <= 6) ds -> 0 <= k <= 6 ->
  str_contains (serialize_days (map int ds)) (number_to_string (int k))
  = existsb (Z.eqb k) ds.
Proof.
  intros Hall Hk. unfold serialize_days. rewrite map_map.
  induction Hall as [|x ds Hx Hall IH].
  - now apply contains_weekday_empty.
  - destruct ds as [|y ds].
    + simpl. rewrite orb_false_r. now apply contains_weekday_last.
    + change (join "," (map (fun x => number_to_string (int x)) (x :: y :: ds)))
        with (append (number_to_string (int x))
                     (String "," (join "," (map (fun x => number_to_string (int x))
                                                (y :: ds))))).
      rewrite contains_weekday_cons by assumption.
      simpl existsb. f_equal. exact IH.
Qed.

Lemma local_time_utc_zone (t : Z) : local_time utc_zone t = t.
Proof. unfold local_time, offset_at; simpl. destruct (_ && _); lia. Qed.

(** A daily workout matches every weekday. *)
Lemma daily_matches (dayOfWeek : Z) (w : Workout.t) :
  Workout.scheduleType w = "daily" -> schedule_matches dayOfWeek w = true.
Proof. intros H. unfold schedule_matches. now rewrite H. Qed.

(** On a UTC server, a weekly workout whose days are weekdays matches a
    date exactly when the date's UTC weekday is one of its days. *)
Lemma weekly_match_utc (t : Z) (w : Workout.t) (ds : list Z) :
  Workout.scheduleType w = "weekly" ->
  Workout.scheduleDays w = serialize_days (map int ds) ->
  Forall (fun x => 0 <= x <= 6) ds ->
  schedule_matches (getDay utc_zone t) w = existsb (Z.eqb (week_day t)) ds.
Proof.
  intros Ht Hd Hall. unfold schedule_matches, getDay.
  rewrite Ht, Hd, local_time_utc_zone. simpl.
  apply contains_weekday; [exact Hall|].
  unfold week_day.
  pose proof (Z.mod_pos_bound (day_of t + 4) 7). lia.
Qed.

(** C1 (code_bug): the weekday is read with [getDay()], in the server's
    local zone, not in UTC.  2024-03-15 is a Friday (UTC weekday 5), and a
    workout scheduled weekly on day 5 matches it on a UTC server; on a
    server in Sao Paulo (UTC-3), [new Date("2024-03-15")] is Thursday
    21:00 local, [getDay()] is 4, the workout does not match and
    [GET /date/2024-03-15] answers a Rest day. *)
Theorem weekly_match_uses_local_weekday :
  week_day (date_of_iso 2024 3 15) = 5
  /\ Workout.scheduleType friday_push = "weekly"
  /\ Workout.scheduleDays friday_push = serialize_days [int 5]
  /\ schedule_matches (getDay utc_zone (date_of_iso 2024 3 15)) friday_push = true
  /\ schedule_matches (getDay sao_paulo (date_of_iso 2024 3 15)) friday_push = false
  /\ get_date_route sao_paulo (push_db []) 1 2024 3 15
     = {| dr_date := (2024, 3, 15); dr_category := "Rest"; dr_exercises := [] |}.
Proof. vm_compute. repeat split. Qed.

(* ------------------------------------------------------------------ *)
(** ** Day resolution (C2) *)

(** C2: the day query returns the first of the caller's workouts, in table
    order, whose schedule matches the weekday; when none matches, both the
    date route and a week entry answer the Rest sentinel (no id, category
    "Rest", no exercises).  Being a function of its inputs, the answer is
    the same on every call with the same input. *)
Theorem resolve_day_first_match (st : db) (uid dayOfWeek : Z)
  (date : Z * Z * Z) :
  (forall pre w post,
      workouts st = pre ++ w :: post ->
      owned_match uid dayOfWeek w = true ->
      (forall v, In v pre -> owned_match uid dayOfWeek v = false) ->
      find_first_scheduled st uid dayOfWeek = Some w
      /\ date_response_for st uid dayOfWeek date
         = {| dr_date := date; dr_category := Workout.category w;
              dr_exercises := exercises_of st (Workout.id w) |})
  /\ ((forall v, In v (workouts st) -> owned_match uid dayOfWeek v = false) ->
      find_first_scheduled st uid dayOfWeek = None
      /\ date_response_for st uid dayOfWeek date
         = {| dr_date := date; dr_category := "Rest"; dr_exercises := [] |}
      /\ day_entry_for st uid dayOfWeek date
         = {| de_id := None; de_date := date; de_category := "Rest";
              de_exercises := [] |}).
Proof.
  split.
  - intros pre w post Hst Hw Hpre.
    assert (Hf : find_first_scheduled st uid dayOfWeek = Some w).
    { unfold find_first_scheduled. rewrite Hst. now apply find_app_first. }
    split; [exact Hf|]. unfold date_response_for. now rewrite Hf.
  - intros Hnone.
    assert (Hf : find_first_scheduled st uid dayOfWeek = None).
    { now apply find_none_all. }
    unfold date_response_for, day_entry_for. rewrite Hf. repeat split.
Qed.

(* ------------------------------------------------------------------ *)
(** ** Week projection (C3) *)

(** Whatever the zone, the database and the start date, the week route
    pushes one entry per loop iteration: seven entries. *)
Lemma week_route_length (z : zone) (st : db) (uid y m d : Z) :
  List.length (week_route z st uid y m d) = 7%nat.
Proof. unfold week_route. now rewrite !length_map, length_seq. Qed.

(** Each entry is the day resolution of its own date. *)
Lemma week_route_entries (z : zone) (st : db) (uid y m d : Z) :
  week_route z st uid y m d
  = map (fun i =>
           let startDate := setUTCHours (date_of_iso y m d) 0 0 0 0 in
           let currentDate := setDate z startDate (getDate z startDate + i) in
           day_entry_for st uid (getDay z currentDate) (iso_date currentDate))
        [0; 1; 2; 3; 4; 5; 6].
Proof. reflexivity. Qed.

(** C3 (code_bug): the entry dates come from local-time [getDate]/[setDate]
    applied to a UTC midnight, so a daylight-saving change inside the week
    shifts them.  On a server in New York, [GET /week/2024-03-09] (no
    workouts: seven Rest entries) dates its entries 03-09, 03-10, 03-10,
    03-11, ..., 03-14: 2024-03-10 twice and 2024-03-15 never. *)
Theorem week_dates_shift_across_dst :
  map de_date (week_route new_york_2024 empty_db 1 2024 3 9)
  = [(2024, 3, 9); (2024, 3, 10); (2024, 3, 10); (2024, 3, 11);
     (2024, 3, 12); (2024, 3, 13); (2024, 3, 14)]
  /\ Forall (fun e => de_id e = None /\ de_category e = "Rest"
                      /\ de_exercises e = [])
            (week_route new_york_2024 empty_db 1 2024 3 9).
Proof. vm_compute. split; [reflexivity|]. repeat constructor. Qed.

(* ------------------------------------------------------------------ *)
(** ** Workout deletion (C4) *)

(** In the transactional variant of auth.ts, the database after the call is
    either unchanged or has no workout, exercise or log of the workout. *)
Lemma delete_workout_tx_atomic (st : db) (uid : Z) (id : string) :
  let st' := snd (delete_workout_tx_route st uid id) in
  st' = st
  \/ exists wid, parse_int id = Num wid
      /\ ~ In wid (map Workout.id (workouts st'))
      /\ ~ In wid (map Exercise.workoutId (exercises st'))
      /\ ~ In wid (map WorkoutLog.workoutId (logs st')).
Proof.
  unfold delete_workout_tx_route.
  destruct (parse_int id) as [wid|]; [|now left].
  destruct (negb _); [now left|].
  unfold workout_delete.
  destruct (negb (workout_exists _ wid)); [now left|].
  destruct (_ || _) eqn:Href; [now left|].
  right. exists wid. split; [reflexivity|]. simpl.
  repeat split; intros Hin; apply in_map_iff in Hin as (x & Hx & Hin);
    apply filter_In in Hin as [_ Hk]; rewrite Hx, Z.eqb_refl in Hk;
    discriminate.
Qed.

(** C4 (code_bug): [DELETE /:id] of workouts.ts deletes the exercises, then
    the workout, as separate queries and never the logs.  For a workout with
    one exercise and one log, the workout deletion violates the log's
    foreign key and the route answers 500 with the exercise gone while the
    workout and its log remain. *)
Theorem delete_route_leaves_partial_state :
  delete_workout_route (push_db [thu_log]) 1 "1"
  = (500, set_exercises (push_db [thu_log]) [])
  /\ workouts (push_db [thu_log]) = [friday_push]
  /\ exercises (push_db [thu_log]) = [bench_row]
  /\ logs (push_db [thu_log]) = [thu_log]
  /\ Exercise.workoutId bench_row = 1 /\ WorkoutLog.workoutId thu_log = 1.
Proof. vm_compute. repeat split. Qed.

(* ------------------------------------------------------------------ *)
(** ** Logging a session (C5, C6) *)

(** [POST /:id/log] stamps every row it creates with the server clock. *)
Lemma log_workout_route_date (now : Z) (st st' : db) (uid : Z) (id : string)
  (body : jval) (code : Z) (l : WorkoutLog.t) :
  log_workout_route now st uid id body = (code, st', Some l) ->
  WorkoutLog.date l = now.
Proof.
  unfold log_workout_route, workoutLog_create.
  destruct (parse_int id) as [wid|]; [|discriminate].
  destruct (json_column _) as [ex|]; [|discriminate].
  destruct (negb _); [discriminate|].
  intros H. injection H as _ _ <-. reflexivity.
Qed.

Definition session_body : jval :=
  JObj [("date", JStr "2024-03-15"); ("exercises", JArr [bench_result]);
        ("workoutId", JNum (int 1))].

Definition session_body_no_date : jval :=
  JObj [("exercises", JArr [bench_result]); ("workoutId", JNum (int 1))].

(** 2024-03-20 10:00 UTC, the server clock in the C5 example. *)
Definition server_now : Z := date_of_iso 2024 3 20 + 10 * ms_per_hour.

(** C5 (code_bug): [POST /workouts/1/log] with the client date 2024-03-15
    received on 2024-03-20 stores the receipt time, not the client date;
    and with no [date] at all it still answers 200 and creates a row. *)
Theorem log_route_stamps_server_clock :
  log_workout_route server_now (push_db []) 1 "1" session_body
  = (200, push_db [log_at 1 1 server_now], Some (log_at 1 1 server_now))
  /\ server_now <> date_of_iso 2024 3 15
  /\ jget "date" session_body_no_date = None
  /\ log_workout_route server_now (push_db []) 1 "1" session_body_no_date
     = (200, push_db [log_at 1 1 server_now], Some (log_at 1 1 server_now)).
Proof. vm_compute. repeat split; discriminate. Qed.

(** Another user's workout: the Friday Push workout owned by user 2. *)
Definition others_push : Workout.t :=
  {| Workout.id := 1; Workout.name := "Push day"; Workout.category := "Push";
     Workout.userId := 2; Workout.scheduleType := "weekly";
     Workout.scheduleDays := "5"; Workout.frequency := int 1 |}.

(** The parser of [new Date(v)] used in the examples: an ISO date
    [YYYY-MM-DD] (only 2024-03-15 is spelled out) or a time value, which
    [TimeClip] truncates towards zero and bounds by [8.64e15]. *)
Definition example_new_date (v : jval) : option Z :=
  match v with
  | JStr "2024-03-15" => Some (date_of_iso 2024 3 15)
  | JNum x =>
      let t := if 0 <=? exp10 x then mant x * 10 ^ exp10 x
               else Z.quot (mant x) (10 ^ (- exp10 x)) in
      if Z.abs t <=? 8640000000000000 then Some t else None
  | _ => None
  end.

(** C6, counterexample: user 1 logs a session against workout 1 of user 2,
    through either route; both answer 200 and create the row. *)
Lemma log_routes_accept_other_users_workout :
  Workout.userId others_push = 2
  /\ log_workout_route server_now (db_of [others_push] [] []) 1 "1" session_body
     = (200, db_of [others_push] [] [log_at 1 1 server_now],
        Some (log_at 1 1 server_now))
  /\ post_logs_route example_new_date (db_of [others_push] [] []) 1 session_body
     = (200, db_of [others_push] [] [log_at 1 1 (date_of_iso 2024 3 15)],
        Some (log_at 1 1 (date_of_iso 2024 3 15))).
Proof. vm_compute. repeat split. Qed.

(** What a logging route does with workout [wid] for caller [uid]: if the
    workout exists, whoever owns it, one row of [uid] on [wid] is appended
    and returned with 200; otherwise 500 and the database is unchanged. *)
Definition logs_without_owner_check (st : db) (uid wid : Z) (r : log_response)
  : Prop :=
  (workout_exists st wid = true ->
     exists st' l, r = (200, st', Some l) /\ logs st' = logs st ++ [l]
                   /\ WorkoutLog.userId l = uid /\ WorkoutLog.workoutId l = wid)
  /\ (workout_exists st wid = false -> r = (500, st, None)).

Lemma workoutLog_create_outcome (st : db) (uid wid t : Z) (ex : jval) :
  logs_without_owner_check st uid wid
    (match workoutLog_create st uid wid t ex with
     | POk (st', l) => (200, st', Some l)
     | PErr _ => (500, st, None)
     end).
Proof.
  unfold workoutLog_create. split; intros Hex; rewrite Hex; simpl.
  - eexists _, _. repeat split; reflexivity.
  - reflexivity.
Qed.

(** C6 (corrected): neither logging route compares the workout's owner with
    the caller.  [POST /:id/log] with a numeric id and an [exercises] field
    in the body (JSON [null] included), and [POST /logs] with truthy
    [date], [exercises] and [workoutId], a parseable date and a numeric
    workoutId, both create the caller's row whenever workout [wid] exists,
    and answer 500 with no row created when it does not.  Without an
    [exercises] field, [POST /:id/log] answers 500 and creates nothing. *)
Theorem log_routes_no_owner_check (st : db) (uid wid : Z) :
  (forall now id body ex,
      parse_int id = Num wid ->
      jget "exercises" body = Some ex ->
      logs_without_owner_check st uid wid (log_workout_route now st uid id body))
  /\ (forall now id body,
      jget "exercises" body = None ->
      log_workout_route now st uid id body = (500, st, None))
  /\ (forall new_date body dv ex wv t,
      jget "date" body = Some dv -> jget "exercises" body = Some ex ->
      jget "workoutId" body = Some wv ->
      truthy (Some dv) = true -> truthy (Some ex) = true ->
      truthy (Some wv) = true ->
      new_date dv = Some t -> parse_int (js_string_of wv) = Num wid ->
      logs_without_owner_check st uid wid (post_logs_route new_date st uid body)).
Proof.
  split; [|split].
  - intros now id body ex Hid Hex. unfold log_workout_route.
    rewrite Hid, Hex. apply workoutLog_create_outcome.
  - intros now id body Hex. unfold log_workout_route.
    rewrite Hex. now destruct (parse_int id).
  - intros new_date body dv ex wv t Hd He Hw Td Te Tw Ht Hwid.
    unfold post_logs_route. rewrite Hd, He, Hw, Td, Te, Tw. simpl.
    rewrite Ht, Hwid. apply workoutLog_create_outcome.
Qed.

(* ------------------------------------------------------------------ *)
(** ** Logs of a date (C7) *)

Lemma utc_of_local_utc (l : Z) : utc_of_local utc_zone l = l.
Proof.
  unfold utc_of_local, offset_at; simpl. rewrite Z.sub_0_r.
  now destruct (_ && _).
Qed.

(** On a UTC server the window is the UTC day, boundaries included. *)
Lemma day_window_utc (y m d : Z) :
  day_window utc_zone y m d
  = (date_of_iso y m d, date_of_iso y m d + ms_per_day - 1).
Proof.
  unfold day_window, setHours, date_of_iso, day_of.
  rewrite !local_time_utc_zone, !utc_of_local_utc.
  unfold ms_per_day, ms_per_hour.
  rewrite Z.div_mul by lia.
  f_equal; [lia|].
  replace ((days_from_civil y m d * 86400000 + 0 * 3600000 + 0 * 60000
            + 0 * 1000 + 0) / 86400000) with (days_from_civil y m d).
  - lia.
  - rewrite <- Z.div_mul with (a := days_from_civil y m d) (b := 86400000)
      at 1 by lia. f_equal. lia.
Qed.

(** C7 (code_bug): [new Date("2024-03-15")] is UTC midnight and
    [setHours(0, 0, 0, 0)] then moves to the start of the local day that
    contains it.  In Sao Paulo (UTC-3) that is 2024-03-14 00:00 local, so
    [GET /logs/2024-03-15] returns the log of 2024-03-14 at noon and not
    the log of 2024-03-15 at noon. *)
Theorem logs_for_date_window_previous_local_day :
  day_window sao_paulo 2024 3 15
  = (date_of_iso 2024 3 14 + 3 * ms_per_hour,
     date_of_iso 2024 3 15 + 3 * ms_per_hour - 1)
  /\ local_time sao_paulo (WorkoutLog.date fri_log)
     = date_of_iso 2024 3 15 + 12 * ms_per_hour
  /\ local_time sao_paulo (WorkoutLog.date thu_log)
     = date_of_iso 2024 3 14 + 12 * ms_per_hour
  /\ map fst (logs_for_date_route sao_paulo (push_db [thu_log; fri_log]) 1 2024 3 15)
     = [thu_log].
Proof. vm_compute. repeat split. Qed.

Lemma insert_desc_In (x l : WorkoutLog.t) (ls : list WorkoutLog.t) :
  In x (insert_desc l ls) <-> x = l \/ In x ls.
Proof.
  induction ls as [|v ls IH]; simpl; [intuition congruence|].
  destruct (_ <? _); simpl; [intuition congruence|].
  rewrite IH. intuition congruence.
Qed.

Lemma sort_date_desc_In (x : WorkoutLog.t) (ls : list WorkoutLog.t) :
  In x (sort_date_desc ls) <-> In x ls.
Proof.
  induction ls as [|v ls IH]; simpl; [tauto|].
  rewrite insert_desc_In, IH. intuition.
Qed.

(** On a UTC server, [GET /logs/:date] returns exactly the caller's logs
    from 00:00:00.000 to 23:59:59.999 UTC of the date. *)
Lemma logs_for_date_utc (st : db) (uid y m d : Z) (l : WorkoutLog.t) :
  In l (map fst (logs_for_date_route utc_zone st uid y m d))
  <-> In l (logs st) /\ WorkoutLog.userId l = uid
      /\ date_of_iso y m d <= WorkoutLog.date l
      /\ WorkoutLog.date l <= date_of_iso y m d + ms_per_day - 1.
Proof.
  unfold logs_for_date_route. rewrite map_map. simpl. rewrite map_id.
  rewrite sort_date_desc_In, filter_In, day_window_utc.
  unfold in_window; simpl.
  rewrite !andb_true_iff, Z.eqb_eq, !Z.leb_le. tauto.
Qed.

(* ------------------------------------------------------------------ *)
(** ** Workout creation (C8) *)

(** The [schedule] object of a request. *)
Definition schedule_obj (type : string) (days : list number) (frequency : number)
  : jval :=
  JObj [("type", JStr type); ("days", JArr (map JNum days));
        ("frequency", JNum frequency)].

Lemma z_items_numbers (path : zpath) (i : nat) (ds : list number) :
  z_items z_number path i (map JNum ds) = ZOk ds.
Proof.
  revert i. induction ds as [|x ds IH]; intros i; simpl; [reflexivity|].
  now rewrite IH.
Qed.

(** C8, counterexample: weekly schedules with no day, with an
    out-of-range, repeated day, and with the non-integer day 2.5, pass the
    schema and the workout is created; 2.5 is stored as ["2.5"] and read
    back by [parseInt] as 2. *)
Lemma weekly_schedule_days_unchecked :
  (exists pw st',
      create_workout_route int32 empty_db 1 (workout_body "weekly" [])
      = (CreateOk pw, st'))
  /\ (exists pw st',
      create_workout_route int32 empty_db 1
        (workout_body "weekly" [int 9; int 9])
      = (CreateOk pw, st')
      /\ Workout.scheduleDays (pw_workout pw) = "9,9")
  /\ (exists pw st',
      create_workout_route int32 empty_db 1
        (workout_body "weekly" [mk_number 25 (-1)])
      = (CreateOk pw, st')
      /\ Workout.scheduleDays (pw_workout pw) = "2.5"
      /\ pw_days pw = [Num 2]).
Proof.
  vm_compute. split; [|split]; eexists _, _; [reflexivity| |];
    repeat split; reflexivity.
Qed.

(** C8 (corrected): a body failing [workoutSchema] is answered 400 with the
    zod issues and nothing is created; a body passing it (with [Int]
    values Prisma accepts) creates the workout, whose [scheduleDays] is
    [days.join(',')] for either type.  The schedule object passes exactly
    when [type] is ['weekly'] or ['daily'] (an issue at [schedule.type]
    otherwise), whatever array of numbers [days] is: empty, out of 0..6,
    non-integer or repeated. *)
Theorem create_workout_schedule_validation (prisma_int : number -> bool) (st : db)
  (uid : Z) (body : jval) :
  (forall issues, workoutSchema_parse body = ZErr issues ->
     create_workout_route prisma_int st uid body = (CreateInvalid issues, st))
  /\ (forall d, workoutSchema_parse body = ZOk d ->
      input_ints_ok prisma_int d = true ->
      exists pw st',
        create_workout_route prisma_int st uid body = (CreateOk pw, st')
        /\ workouts st' = workouts st ++ [pw_workout pw]
        /\ Workout.scheduleType (pw_workout pw) = sc_type (wi_schedule d)
        /\ Workout.scheduleDays (pw_workout pw)
           = serialize_days (sc_days (wi_schedule d)))
  /\ (forall path type days frequency,
      z_schedule path (Some (schedule_obj type days frequency))
      = if String.eqb type "weekly" || String.eqb type "daily"
        then ZOk {| sc_type := type; sc_days := days; sc_frequency := frequency |}
        else ZErr [zchild path (PKey "type")]).
Proof.
  split; [|split].
  - intros issues H. unfold create_workout_route. now rewrite H.
  - intros d H Hi. unfold create_workout_route, workout_create.
    rewrite H, Hi. simpl. eexists _, _. repeat split; reflexivity.
  - intros path type days frequency. cbn.
    rewrite z_items_numbers, orb_false_r.
    destruct (String.eqb type "weekly" || String.eqb type "daily"); reflexivity.
Qed.

(* ------------------------------------------------------------------ *)
(** ** Persisted schedule days (C9, C10) *)

(** A weekday is written as one character, other than the separator,
    that [parseInt] reads back. *)
Lemma weekday_piece (x : Z) :
  0 <= x <= 6 ->
  exists c, number_to_string (int x) = String c ""
            /\ Ascii.eqb c "," = false /\ parse_int (String c "") = Num x.
Proof.
  intros Hx.
  assert (x = 0 \/ x = 1 \/ x = 2 \/ x = 3 \/ x = 4 \/ x = 5 \/ x = 6)
    as Hc by lia.
  repeat destruct Hc as [-> | Hc];
    try (eexists; split; [reflexivity | split; reflexivity]).
  subst. eexists; split; [reflexivity | split; reflexivity].
Qed.

(** For a non-empty list of weekdays the encoding round-trips. *)
Lemma weekdays_roundtrip (ds : list Z) :
  ds <> [] -> Forall (fun x => 0 <= x <= 6) ds ->
  parse_days (serialize_days (map int ds)) = map Num ds.
Proof.
  intros Hne Hall. unfold parse_days, serialize_days, split. rewrite map_map.
  induction Hall as [|x ds Hx Hall IH]; [contradiction|].
  destruct (weekday_piece x Hx) as (c & Hs & Hc & Hp).
  destruct ds as [|y ds].
  - cbn [map join]. rewrite Hs. simpl. rewrite Hc. simpl. now rewrite Hp.
  - change (map (fun x => number_to_string (int x)) (x :: y :: ds))
      with (number_to_string (int x)
            :: map (fun x => number_to_string (int x)) (y :: ds)).
    rewrite Hs. cbn [join]. simpl. rewrite Hc. simpl.
    rewrite Hp. f_equal. apply IH. discriminate.
Qed.

(** C9 (code_bug): the empty list does not round-trip: [[].join(',')] is
    [""], [''.split(',')] is [[""]] and [parseInt("")] is NaN. *)
Theorem empty_days_do_not_roundtrip :
  serialize_days [] = ""
  /\ parse_days (serialize_days []) = [NaN]
  /\ parse_days (serialize_days []) <> map Num [].
Proof. split; [reflexivity|]. split; [reflexivity|]. discriminate. Qed.

(** C10: a workout created with [days: []] is stored with [scheduleDays]
    [""], the POST response carries [days: [NaN]], and every later read of
    such a row through [parseWorkoutScheduleDays] (GET /) gives [[NaN]]. *)
Theorem empty_days_read_back_as_nan (prisma_int : number -> bool) (st : db)
  (uid : Z) (body : jval) (d : workout_input) :
  workoutSchema_parse body = ZOk d ->
  sc_days (wi_schedule d) = [] ->
  input_ints_ok prisma_int d = true ->
  exists pw st',
    create_workout_route prisma_int st uid body = (CreateOk pw, st')
    /\ Workout.scheduleDays (pw_workout pw) = ""
    /\ pw_days pw = [NaN]
    /\ In (pw_workout pw) (workouts st')
    /\ (forall st'' uid'' pw'', In pw'' (get_workouts_route st'' uid'') ->
        Workout.scheduleDays (pw_workout pw'') = "" -> pw_days pw'' = [NaN]).
Proof.
  intros Hp Hd Hi. unfold create_workout_route, workout_create.
  rewrite Hp, Hi. simpl. eexists _, _. split; [reflexivity|].
  simpl. rewrite Hd. split; [reflexivity|]. split; [reflexivity|].
  split; [apply in_or_app; right; now left|].
  intros st'' uid'' pw'' Hin Hs.
  unfold get_workouts_route in Hin. apply in_map_iff in Hin as (w & <- & _).
  simpl in *. now rewrite Hs.
Qed.

(** The input of [workout_body "daily" []] once parsed. *)
Definition daily_no_days_input : workout_input :=
  {| wi_name := "Legs"; wi_category := "Legs";
     wi_exercises := [{| xi_name := "Bench"; xi_sets := int 3; xi_reps := int 10;
                         xi_weight := int 80; xi_notes := None |}];
     wi_schedule := {| sc_type := "daily"; sc_days := []; sc_frequency := int 1 |} |}.

Lemma empty_days_read_back_as_nan_witness :
  workoutSchema_parse (workout_body "daily" []) = ZOk daily_no_days_input
  /\ exists pw st',
    create_workout_route int32 empty_db 1 (workout_body "daily" [])
    = (CreateOk pw, st')
    /\ Workout.scheduleDays (pw_workout pw) = ""
    /\ pw_days pw = [NaN]
    /\ In (pw_workout pw) (workouts st')
    /\ (forall st'' uid'' pw'', In pw'' (get_workouts_route st'' uid'') ->
        Workout.scheduleDays (pw_workout pw'') = "" -> pw_days pw'' = [NaN]).
Proof.
  split; [vm_compute; reflexivity|].
  apply (empty_days_read_back_as_nan int32 empty_db 1 (workout_body "daily" [])
           daily_no_days_input); vm_compute; reflexivity.
Defined.



(* ------------------------------------------------------------------ *)
(** ** Integer encoding of [scheduleDays] *)

Definition is_digit (a : ascii) : bool :=
  Nat.leb 48 (nat_of_ascii a) && Nat.leb (nat_of_ascii a) 57.

Fixpoint all_digits (s : string) : bool :=
  match s with
  | EmptyString => true
  | String a rest => is_digit a && all_digits rest
  end.

Fixpoint no_comma (s : string) : bool :=
  match s with
  | EmptyString => true
  | String a rest => negb (Ascii.eqb a ",") && no_comma rest
  end.

(** Case split on a decimal digit [0 <= d < 10]. *)
Ltac digit_cases d H :=
  let Hc := fresh "Hc" in
  assert (d = 0 \/ d = 1 \/ d = 2 \/ d = 3 \/ d = 4 \/ d = 5 \/ d = 6
          \/ d = 7 \/ d = 8 \/ d = 9) as Hc by lia;
  clear H; repeat destruct Hc as [-> | Hc]; try subst d.

Lemma digit_char_value (d : Z) :
  0 <= d < 10 -> digit_value 10 (digit_char d) = Some d.
Proof. intros H. digit_cases d H; reflexivity. Qed.

Lemma digit_char_is_digit (d : Z) :
  0 <= d < 10 -> is_digit (digit_char d) = true.
Proof. intros H. digit_cases d H; reflexivity. Qed.

Lemma read_decimal_digits (f : nat) (n : Z) (acc : string) :
  0 < n < 10 ^ Z.of_nat f ->
  read_digits 10 (decimal_digits f n acc) None = read_digits 10 acc (Some n).
Proof.
  revert n acc. induction f as [|f IH]; intros n acc Hn.
  - simpl in Hn. lia.
  - rewrite Nat2Z.inj_succ, Z.pow_succ_r in Hn by lia.
    pose proof (Z.mod_pos_bound n 10 ltac:(lia)) as Hm.
    pose proof (Z.div_mod n 10 ltac:(lia)) as Hd.
    cbn [decimal_digits].
    destruct (n / 10 =? 0) eqn:Hq.
    + apply Z.eqb_eq in Hq. cbn [read_digits].
      rewrite digit_char_value by exact Hm. f_equal. f_equal. lia.
    + apply Z.eqb_neq in Hq.
      assert (0 <= n / 10) by (apply Z.div_pos; lia).
      assert (n / 10 < 10 ^ Z.of_nat f)
        by (apply Z.div_lt_upper_bound; lia).
      rewrite IH by lia. cbn [read_digits].
      rewrite digit_char_value by exact Hm. f_equal. f_equal. lia.
Qed.

Lemma all_digits_decimal (f : nat) (n : Z) (acc : string) :
  all_digits acc = true -> all_digits (decimal_digits f n acc) = true.
Proof.
  revert n acc. induction f as [|f IH]; intros n acc Ha; [exact Ha|].
  cbn [decimal_digits].
  assert (Hc : all_digits (String (digit_char (n mod 10)) acc) = true).
  { cbn [all_digits]. rewrite Ha, digit_char_is_digit; [reflexivity|].
    apply Z.mod_pos_bound. lia. }
  destruct (n / 10 =? 0); [exact Hc | now apply IH].
Qed.

Lemma decimal_digits_nonempty (f : nat) (n : Z) (acc : string) :
  f <> O -> decimal_digits f n acc <> EmptyString.
Proof.
  revert n acc. induction f as [|f IH]; intros n acc Hf; [contradiction|].
  cbn [decimal_digits]. destruct (n / 10 =? 0); [discriminate|].
  destruct f as [|f].
  - discriminate.
  - apply IH. discriminate.
Qed.

Lemma pos_lt_pow10 (p : positive) : Zpos p < 10 ^ Z.of_nat (Pos.size_nat p).
Proof.
  induction p as [p IH|p IH|].
  - change (Pos.size_nat p~1) with (S (Pos.size_nat p)).
    rewrite Nat2Z.inj_succ, Z.pow_succ_r by lia.
    rewrite Pos2Z.inj_xI.
    set (k := 10 ^ Z.of_nat (Pos.size_nat p)) in *. lia.
  - change (Pos.size_nat p~0) with (S (Pos.size_nat p)).
    rewrite Nat2Z.inj_succ, Z.pow_succ_r by lia.
    rewrite Pos2Z.inj_xO.
    set (k := 10 ^ Z.of_nat (Pos.size_nat p)) in *. lia.
  - reflexivity.
Qed.

Lemma size_nat_nonzero (p : positive) : Pos.size_nat p <> O.
Proof. destruct p; discriminate. Qed.

(** Case split on a digit character. *)
Lemma is_digit_cases (a : ascii) :
  is_digit a = true ->
  a = "0"%char \/ a = "1"%char \/ a = "2"%char \/ a = "3"%char \/ a = "4"%char
  \/ a = "5"%char \/ a = "6"%char \/ a = "7"%char \/ a = "8"%char \/ a = "9"%char.
Proof.
  unfold is_digit. intros H. apply andb_true_iff in H as [H1 H2].
  apply Nat.leb_le in H1, H2.
  rewrite <- (ascii_nat_embedding a).
  remember (nat_of_ascii a) as k eqn:Hk. clear Hk.
  assert (k = 48 \/ k = 49 \/ k = 50 \/ k = 51 \/ k = 52 \/ k = 53 \/ k = 54
          \/ k = 55 \/ k = 56 \/ k = 57)%nat as Hc by lia.
  repeat destruct Hc as [-> | Hc]; [left; reflexivity | ..];
    repeat (try (left; reflexivity); right); subst; reflexivity.
Qed.

(** No [0x] prefix is read off a string of digits. *)
Lemma radix_of_digits (s : string) :
  all_digits s = true ->
  match s with
  | String "0" (String "x" rest) => (16, rest)
  | String "0" (String "X" rest) => (16, rest)
  | _ => (10, s)
  end = (10, s).
Proof.
  destruct s as [|a s]; [reflexivity|].
  cbn [all_digits]. intros H. apply andb_true_iff in H as [Ha Hs].
  destruct (is_digit_cases a Ha) as [-> | H1]; [|
    repeat destruct H1 as [-> | H1]; try reflexivity; subst; reflexivity].
  destruct s as [|b s]; [reflexivity|].
  cbn [all_digits] in Hs. apply andb_true_iff in Hs as [Hb _].
  destruct (is_digit_cases b Hb) as [-> | H1];
    [reflexivity | repeat destruct H1 as [-> | H1]; try reflexivity; subst;
                   reflexivity].
Qed.

Lemma sign_of_digits (s : string) :
  all_digits s = true ->
  match s with
  | String "-" rest => (-1, rest)
  | String "+" rest => (1, rest)
  | _ => (1, s)
  end = (1, s).
Proof.
  destruct s as [|a s]; [reflexivity|].
  cbn [all_digits]. intros H. apply andb_true_iff in H as [Ha _].
  destruct (is_digit_cases a Ha) as [-> | H1];
    [reflexivity | repeat destruct H1 as [-> | H1]; try reflexivity; subst;
                   reflexivity].
Qed.

Lemma skip_space_digits (s : string) :
  all_digits s = true -> skip_space s = s.
Proof.
  destruct s as [|a s]; [reflexivity|].
  cbn [all_digits]. intros H. apply andb_true_iff in H as [Ha _].
  destruct (is_digit_cases a Ha) as [-> | H1];
    [reflexivity | repeat destruct H1 as [-> | H1]; try reflexivity; subst;
                   reflexivity].
Qed.

(** [parseInt] reads back the decimal numeral of every integer. *)
Lemma parse_int_decimal (z : Z) : parse_int (decimal_string z) = Num z.
Proof.
  destruct z as [|p|p]; [reflexivity| |].
  - assert (Hd : all_digits (decimal_digits (Pos.size_nat p) (Zpos p) "") = true)
      by (apply all_digits_decimal; reflexivity).
    unfold decimal_string, parse_int.
    rewrite (skip_space_digits _ Hd), (sign_of_digits _ Hd),
      (radix_of_digits _ Hd), read_decimal_digits.
    + reflexivity.
    + split; [lia | apply pos_lt_pow10].
  - assert (Hd : all_digits (decimal_digits (Pos.size_nat p) (Zpos p) "") = true)
      by (apply all_digits_decimal; reflexivity).
    unfold decimal_string, parse_int. cbn [append skip_space].
    change (is_js_space "-") with false. cbv iota.
    rewrite (radix_of_digits _ Hd), read_decimal_digits.
    + reflexivity.
    + split; [lia | apply pos_lt_pow10].
Qed.

Lemma all_digits_no_comma (s : string) : all_digits s = true -> no_comma s = true.
Proof.
  induction s as [|a s IH]; [reflexivity|].
  cbn [all_digits no_comma]. intros H. apply andb_true_iff in H as [Ha Hs].
  rewrite IH by exact Hs.
  destruct (is_digit_cases a Ha) as [-> | H1];
    [reflexivity | repeat destruct H1 as [-> | H1]; try reflexivity; subst;
                   reflexivity].
Qed.

Lemma decimal_string_no_comma (z : Z) : no_comma (decimal_string z) = true.
Proof.
  destruct z as [|p|p]; [reflexivity| |];
    unfold decimal_string; cbn [append no_comma];
    apply all_digits_no_comma, all_digits_decimal; reflexivity.
Qed.

Lemma append_assoc_str (a b c : string) :
  append a (append b c) = append (append a b) c.
Proof. induction a as [|x a IH]; simpl; [reflexivity|]. now rewrite IH. Qed.

Lemma append_empty_r (a : string) : append a "" = a.
Proof. induction a as [|x a IH]; simpl; [reflexivity|]. now rewrite IH. Qed.

(** ** [String(x)] on an integer below [10^21] *)

Lemma decimal_digits_acc (f : nat) (n : Z) (acc : string) :
  decimal_digits f n acc = append (decimal_digits f n "") acc.
Proof.
  revert n acc. induction f as [|f IH]; intros n acc; [reflexivity|].
  cbn [decimal_digits]. destruct (n / 10 =? 0); [reflexivity|].
  rewrite IH, (IH _ (String _ "")), <- append_assoc_str. reflexivity.
Qed.

Lemma decimal_digits_fuel (f g : nat) (n : Z) (acc : string) :
  0 < n < 10 ^ Z.of_nat f -> n < 10 ^ Z.of_nat g ->
  decimal_digits f n acc = decimal_digits g n acc.
Proof.
  revert g n acc. induction f as [|f IH]; intros g n acc Hf Hg.
  - simpl in Hf. lia.
  - destruct g as [|g]; [simpl in Hg; lia|].
    rewrite Nat2Z.inj_succ, Z.pow_succ_r in Hf, Hg by lia.
    cbn [decimal_digits]. destruct (n / 10 =? 0) eqn:Hq; [reflexivity|].
    apply Z.eqb_neq in Hq.
    assert (0 <= n / 10) by (apply Z.div_pos; lia).
    apply IH; [split; [lia|] | ]; apply Z.div_lt_upper_bound; lia.
Qed.

Lemma decimal_string_pos (n : Z) :
  0 < n -> exists f, decimal_string n = decimal_digits f n ""
                     /\ n < 10 ^ Z.of_nat f.
Proof.
  intros Hn. destruct n as [|p|p]; try lia.
  exists (Pos.size_nat p). split; [reflexivity | apply pos_lt_pow10].
Qed.

(** Appending a zero digit multiplies by ten. *)
Lemma decimal_string_times10 (s : Z) :
  0 < s -> decimal_string (s * 10) = append (decimal_string s) "0".
Proof.
  intros Hs.
  destruct (decimal_string_pos (s * 10)) as (f & Hf & Hlt); [lia|].
  destruct (decimal_string_pos s) as (g & Hg & Hlt'); [lia|].
  rewrite Hf, Hg. destruct f as [|f]; [simpl in Hlt; lia|].
  rewrite Nat2Z.inj_succ, Z.pow_succ_r in Hlt by lia.
  cbn [decimal_digits]. rewrite Z.mod_mul, Z.div_mul by lia.
  replace (s =? 0) with false by (symmetry; apply Z.eqb_neq; lia).
  rewrite (decimal_digits_fuel f g) by lia.
  apply decimal_digits_acc.
Qed.

Lemma zeros_snoc (j : nat) : append (zeros j) "0" = String "0" (zeros j).
Proof. induction j as [|j IH]; simpl; [reflexivity|]. now rewrite IH. Qed.

Lemma decimal_string_shift (s : Z) (j : nat) :
  0 < s -> decimal_string (s * 10 ^ Z.of_nat j) = append (decimal_string s) (zeros j).
Proof.
  intros Hs. induction j as [|j IH].
  - simpl. rewrite Z.mul_1_r. symmetry. apply append_empty_r.
  - rewrite Nat2Z.inj_succ, Z.pow_succ_r by lia.
    replace (s * (10 * 10 ^ Z.of_nat j)) with (s * 10 ^ Z.of_nat j * 10) by ring.
    rewrite decimal_string_times10 by (pose proof (Z.pow_pos_nonneg 10 (Z.of_nat j)); nia).
    rewrite IH, <- append_assoc_str, zeros_snoc. reflexivity.
Qed.

(** A number of [k] digits is at least [10^(k-1)]. *)
Lemma decimal_digits_length (f : nat) (n : Z) (acc : string) :
  0 < n < 10 ^ Z.of_nat f ->
  exists k, String.length (decimal_digits f n acc) = (String.length acc + S k)%nat
            /\ 10 ^ Z.of_nat k <= n.
Proof.
  revert n acc. induction f as [|f IH]; intros n acc Hn.
  - simpl in Hn. lia.
  - rewrite Nat2Z.inj_succ, Z.pow_succ_r in Hn by lia.
    cbn [decimal_digits]. destruct (n / 10 =? 0) eqn:Hq.
    + exists O. simpl. split; [lia|]. lia.
    + apply Z.eqb_neq in Hq.
      assert (0 <= n / 10) by (apply Z.div_pos; lia).
      destruct (IH (n / 10) (String (digit_char (n mod 10)) acc)) as (k & Hl & Hk).
      * split; [lia|]. apply Z.div_lt_upper_bound; lia.
      * exists (S k). rewrite Hl. cbn [String.length]. split; [lia|].
        rewrite Nat2Z.inj_succ, Z.pow_succ_r by lia.
        pose proof (Z.mul_div_le n 10). lia.
Qed.

Lemma decimal_string_length (s : Z) :
  0 < s -> exists k, String.length (decimal_string s) = S k /\ 10 ^ Z.of_nat k <= s.
Proof.
  intros Hs. destruct (decimal_string_pos s Hs) as (f & -> & Hf).
  apply (decimal_digits_length f s ""). lia.
Qed.

(** [strip_zeros] ends on a digit string without trailing zero. *)
Lemma strip_zeros_spec (f : nat) (m e s e' : Z) :
  0 < m < 10 ^ Z.of_nat f -> strip_zeros f m e = (s, e') ->
  exists j, e' = e + Z.of_nat j /\ m = s * 10 ^ Z.of_nat j /\ 0 < s
            /\ s mod 10 <> 0.
Proof.
  revert m e. induction f as [|f IH]; intros m e Hm H.
  - simpl in Hm. lia.
  - rewrite Nat2Z.inj_succ, Z.pow_succ_r in Hm by lia.
    cbn [strip_zeros] in H. destruct (m mod 10 =? 0) eqn:Hz.
    + apply Z.eqb_eq in Hz.
      pose proof (Z.div_mod m 10 ltac:(lia)) as Hd.
      destruct (IH (m / 10) (e + 1) ltac:(split; [lia|]; apply Z.div_lt_upper_bound; lia) H)
        as (j & -> & Hj & Hs & Hs10).
      exists (S j). rewrite Nat2Z.inj_succ, Z.pow_succ_r by lia.
      repeat split; [lia | lia | exact Hs | exact Hs10].
    + injection H as <- <-. apply Z.eqb_neq in Hz.
      exists O. simpl. repeat split; lia.
Qed.

(** An integer value [z] of [s * 10^e'], [s] without trailing zero, has
    [e' >= 0] and [z = s * 10^e']. *)
Lemma number_int_stripped (m e s e' z : Z) (j : nat) :
  e' = e + Z.of_nat j -> m = s * 10 ^ Z.of_nat j -> 0 < s -> s mod 10 <> 0 ->
  number_int (mk_number m e) = Some z ->
  0 <= e' /\ z = s * 10 ^ e'.
Proof.
  intros He Hm Hs Hs10. unfold number_int; cbn [mant exp10].
  destruct (0 <=? e) eqn:He0.
  - apply Z.leb_le in He0. intros H. injection H as <-. subst.
    split; [lia|]. rewrite Z.pow_add_r by lia. ring.
  - apply Z.leb_gt in He0.
    destruct (m mod 10 ^ (- e) =? 0) eqn:Hdiv; [|discriminate].
    apply Z.eqb_eq in Hdiv. intros H. injection H as <-.
    assert (Hj : - e <= Z.of_nat j).
    { destruct (Z.le_gt_cases (- e) (Z.of_nat j)) as [|Hlt]; [assumption|].
      exfalso. apply Hs10.
      apply Z.mod_divide in Hdiv; [|apply Z.pow_nonzero; lia].
      destruct Hdiv as [q Hq].
      replace (- e) with (Z.of_nat j + (- e - Z.of_nat j - 1) + 1) in Hq by lia.
      rewrite !Z.pow_add_r, Z.pow_1_r in Hq by lia.
      rewrite Hm in Hq.
      assert (Hp : 0 < 10 ^ Z.of_nat j) by (apply Z.pow_pos_nonneg; lia).
      assert (s = q * 10 ^ (- e - Z.of_nat j - 1) * 10) by nia.
      subst s. apply Z.mod_mul. lia. }
    subst e' m. split; [lia|].
    replace (Z.of_nat j) with (- e + (e + Z.of_nat j)) at 1 by lia.
    rewrite Z.pow_add_r by lia.
    rewrite Z.mul_comm with (n := 10 ^ (- e)), Z.mul_assoc, Z.div_mul; [reflexivity|].
    apply Z.pow_nonzero; lia.
Qed.

Lemma positive_to_string_int (s e' : Z) :
  0 < s -> 0 <= e' -> s * 10 ^ e' < 10 ^ 21 ->
  positive_to_string s e' = decimal_string (s * 10 ^ e').
Proof.
  intros Hs He Hlt.
  destruct (decimal_string_length s Hs) as (k & Hk & Hpow).
  unfold positive_to_string. rewrite Hk.
  assert (Hn : Z.of_nat (S k) + e' <= 21).
  { assert (10 ^ (Z.of_nat k + e') < 10 ^ 21).
    { rewrite Z.pow_add_r by lia.
      pose proof (Z.pow_pos_nonneg 10 e'). nia. }
    apply Z.pow_lt_mono_r_iff in H; lia. }
  replace ((Z.of_nat (S k) <=? e' + Z.of_nat (S k)) && (e' + Z.of_nat (S k) <=? 21))
    with true by (symmetry; apply andb_true_iff; split; apply Z.leb_le; lia).
  replace (e' + Z.of_nat (S k) - Z.of_nat (S k)) with (Z.of_nat (Z.to_nat e')) by lia.
  rewrite Nat2Z.id, <- decimal_string_shift by exact Hs.
  now rewrite Z2Nat.id by exact He.
Qed.

Lemma number_int_neg (p : positive) (e z : Z) :
  number_int (mk_number (Zneg p) e) = Some z ->
  number_int (mk_number (Zpos p) e) = Some (- z).
Proof.
  unfold number_int.
  change (mant (mk_number (Zneg p) e)) with (- Zpos p).
  change (mant (mk_number (Zpos p) e)) with (Zpos p).
  change (exp10 (mk_number (Zneg p) e)) with e.
  change (exp10 (mk_number (Zpos p) e)) with e.
  destruct (0 <=? e) eqn:He.
  - intros H. assert (Hz : z = - Zpos p * 10 ^ e) by congruence.
    subst z. f_equal. ring.
  - apply Z.leb_gt in He.
    assert (Hp : 10 ^ (- e) <> 0) by (apply Z.pow_nonzero; lia).
    destruct (Zpos p mod 10 ^ (- e) =? 0) eqn:Hd.
    + apply Z.eqb_eq in Hd.
      rewrite Z.mod_opp_l_z, Z.div_opp_l_z by assumption. cbn [Z.eqb].
      intros H. assert (Hz : z = - (Zpos p / 10 ^ (- e))) by congruence.
      subst z. f_equal. lia.
    + apply Z.eqb_neq in Hd. rewrite Z.mod_opp_l_nz by assumption.
      destruct (_ =? 0) eqn:Hc; [|discriminate].
      apply Z.eqb_eq in Hc. pose proof (Z.mod_pos_bound (Zpos p) (10 ^ (- e))).
      assert (0 < 10 ^ (- e)) by (apply Z.pow_pos_nonneg; lia). lia.
Qed.

Lemma positive_number_int_string (p : positive) (e z : Z) :
  number_int (mk_number (Zpos p) e) = Some z -> z < 10 ^ 21 ->
  (let '(s, e') := strip_zeros (Pos.size_nat p) (Zpos p) e in
   positive_to_string s e') = decimal_string z.
Proof.
  intros Hz Hlt.
  destruct (strip_zeros (Pos.size_nat p) (Zpos p) e) as [s e'] eqn:Hs.
  destruct (strip_zeros_spec _ _ _ _ _ (conj (eq_refl : 0 < Zpos p) (pos_lt_pow10 p)) Hs)
    as (j & He & Hm & Hs0 & Hs10).
  destruct (number_int_stripped _ _ _ _ _ _ He Hm Hs0 Hs10 Hz) as [He' ->].
  apply positive_to_string_int; assumption.
Qed.

(** [String(x)] of a number equal to an integer [z] with [|z| < 10^21] is
    the decimal numeral of [z]. *)
Lemma number_to_string_int (x : number) (z : Z) :
  number_int x = Some z -> Z.abs z < 10 ^ 21 ->
  number_to_string x = decimal_string z.
Proof.
  destruct x as [m e]. unfold number_to_string; cbn [mant exp10].
  destruct m as [|p|p]; intros Hz Hlt.
  - unfold number_int in Hz; cbn [mant exp10] in Hz.
    destruct (0 <=? e); [injection Hz as <-; reflexivity|].
    rewrite Zmod_0_l in Hz. simpl in Hz. injection Hz as <-.
    rewrite Zdiv_0_l. reflexivity.
  - apply positive_number_int_string; [exact Hz | lia].
  - apply number_int_neg in Hz.
    pose proof (positive_number_int_string p e (- z) Hz ltac:(lia)) as Hp.
    destruct (strip_zeros (Pos.size_nat p) (Zpos p) e) as [s e'] eqn:Hs.
    destruct (strip_zeros_spec _ _ _ _ _ (conj (eq_refl : 0 < Zpos p) (pos_lt_pow10 p)) Hs)
      as (j & He & Hm & Hs0 & Hs10).
    destruct (number_int_stripped _ _ _ _ _ _ He Hm Hs0 Hs10 Hz) as [He' Hz'].
    assert (Hneg : 0 < - z) by (rewrite Hz'; pose proof (Z.pow_pos_nonneg 10 e'); nia).
    rewrite Hp. destruct z as [|q|q]; try lia. reflexivity.
Qed.

Lemma split_acc_piece (s rest cur : string) :
  no_comma s = true ->
  split_acc "," (append s (String "," rest)) cur
  = append cur s :: split_acc "," rest "".
Proof.
  revert cur. induction s as [|a s IH]; intros cur Hs.
  - simpl. now rewrite append_empty_r.
  - cbn [no_comma] in Hs. apply andb_true_iff in Hs as [Ha Hs].
    apply negb_true_iff in Ha. cbn [append split_acc]. rewrite Ha.
    rewrite IH by exact Hs. f_equal.
    now rewrite <- append_assoc_str.
Qed.

Lemma split_acc_last (s cur : string) :
  no_comma s = true -> split_acc "," s cur = [append cur s].
Proof.
  revert cur. induction s as [|a s IH]; intros cur Hs.
  - simpl. now rewrite append_empty_r.
  - cbn [no_comma] in Hs. apply andb_true_iff in Hs as [Ha Hs].
    apply negb_true_iff in Ha. cbn [split_acc]. rewrite Ha.
    rewrite IH by exact Hs. f_equal.
    now rewrite <- append_assoc_str.
Qed.

(** [split(',')] undoes [join(',')] on a non-empty array of pieces without
    commas. *)
Lemma split_join (l : list string) :
  l <> [] -> Forall (fun s => no_comma s = true) l ->
  split "," (join "," l) = l.
Proof.
  intros Hne Hall. unfold split.
  induction Hall as [|s l Hs Hall IH]; [contradiction|].
  destruct l as [|t l].
  - cbn [join]. now rewrite split_acc_last.
  - change (join "," (s :: t :: l)) with (append s (append "," (join "," (t :: l)))).
    cbn [append]. rewrite split_acc_piece by exact Hs. f_equal.
    apply IH. discriminate.
Qed.

(** The [scheduleDays] encoding round-trips for every non-empty list of
    numbers equal to integers below [10^21] in absolute value. *)
Lemma parse_serialized_days (ds : list number) (zs : list Z) :
  Forall2 (fun x z => number_int x = Some z /\ Z.abs z < 10 ^ 21) ds zs ->
  ds <> [] -> parse_days (serialize_days ds) = map Num zs.
Proof.
  intros H Hne. unfold parse_days, serialize_days.
  assert (Hs : map number_to_string ds = map decimal_string zs).
  { clear Hne. induction H as [|x z ds zs [Hx Hz] _ IH]; [reflexivity|].
    cbn [map]. now rewrite (number_to_string_int x z Hx Hz), IH. }
  rewrite Hs, split_join.
  - rewrite map_map. apply map_ext. apply parse_int_decimal.
  - destruct H; [contradiction | discriminate].
  - apply Forall_forall. intros s Hin. apply in_map_iff in Hin as (z & <- & _).
    apply decimal_string_no_comma.
Qed.

(** X1: [parseInt(String(x))] is [z] for every number [x] equal to an
    integer [z] with [|z| < 10^21], however [x] is spelled ([2024.0] or
    [2.024e3]). *)
Theorem parse_int_number_to_string (x : number) (z : Z) :
  number_int x = Some z -> Z.abs z < 10 ^ 21 ->
  parse_int (number_to_string x) = Num z.
Proof.
  intros Hx Hz. rewrite (number_to_string_int x z Hx Hz).
  apply parse_int_decimal.
Qed.

Lemma parse_int_number_to_string_witness :
  number_int (mk_number 20240 (-1)) = Some 2024 /\ Z.abs 2024 < 10 ^ 21
  /\ parse_int (number_to_string (mk_number 20240 (-1))) = Num 2024.
Proof.
  split; [reflexivity|]. split; [reflexivity|].
  apply parse_int_number_to_string; reflexivity.
Defined.

(** X2: [scheduleDays], written by [days.join(',')] in [POST /], is read
    back by [parseWorkoutScheduleDays] as the same days whenever the list
    is non-empty and every day is an integer of absolute value below
    [10^21]. *)
Theorem serialize_days_roundtrip (ds : list number) (zs : list Z) :
  Forall2 (fun x z => number_int x = Some z /\ Z.abs z < 10 ^ 21) ds zs ->
  ds <> [] -> parse_days (serialize_days ds) = map Num zs.
Proof. apply parse_serialized_days. Qed.

Lemma serialize_days_roundtrip_witness :
  Forall2 (fun x z => number_int x = Some z /\ Z.abs z < 10 ^ 21)
          [int 1; int 3; mk_number 50 (-1)] [1; 3; 5]
  /\ [int 1; int 3; mk_number 50 (-1)] <> []
  /\ parse_days (serialize_days [int 1; int 3; mk_number 50 (-1)])
     = map Num [1; 3; 5].
Proof.
  assert (H : Forall2 (fun x z => number_int x = Some z /\ Z.abs z < 10 ^ 21)
                      [int 1; int 3; mk_number 50 (-1)] [1; 3; 5])
    by (repeat constructor).
  split; [exact H|]. split; [discriminate|].
  apply serialize_days_roundtrip; [exact H | discriminate].
Defined.

(* ------------------------------------------------------------------ *)
(** ** [GET /:id/logs] and [GET /logs] *)


Section LogsQuery.
(** [new Date(req.query.date as string)]: [None] is an Invalid Date, whose
    [setHours] stays NaN, rejected by Prisma as a [DateTime] filter. *)
Variable new_date_query : option string -> option Z.

End LogsQuery.

(** Rows in [orderBy: { date: 'desc' }] order. *)
Fixpoint sorted_desc (ls : list WorkoutLog.t) : bool :=
  match ls with
  | x :: (y :: _) as rest =>
      (WorkoutLog.date y <=? WorkoutLog.date x) && sorted_desc rest
  | _ => true
  end.

(* ------------------------------------------------------------------ *)
(** ** Database invariant *)

(** The constraints the schema puts on the three tables: primary keys are
    unique and below the autoincrement counter, and every [workoutId]
    references an existing Workout. *)
Definition db_ok (st : db) : Prop :=
  NoDup (map Workout.id (workouts st))
  /\ NoDup (map Exercise.id (exercises st))
  /\ NoDup (map WorkoutLog.id (logs st))
  /\ Forall (fun w => Workout.id w < next_workout_id st) (workouts st)
  /\ Forall (fun e => Exercise.id e < next_exercise_id st) (exercises st)
  /\ Forall (fun l => WorkoutLog.id l < next_log_id st) (logs st)
  /\ Forall (fun e => workout_exists st (Exercise.workoutId e) = true)
            (exercises st)
  /\ Forall (fun l => workout_exists st (WorkoutLog.workoutId l) = true)
            (logs st).

(* ------------------------------------------------------------------ *)
(** ** Exercise router (auth.ts) *)

(** [exerciseSchema.parse(req.body)]. *)
Definition exerciseSchema_parse (body : jval) : zres exercise_input :=
  z_exercise [] (Some body).

(** [prisma.exercise.findFirst({ where: { id, workout: { userId } } })]. *)
Definition exercise_owned (st : db) (uid eid : Z) : bool :=
  existsb (fun e => (Exercise.id e =? eid)
                    && existsb (fun w => (Workout.id w =? Exercise.workoutId e)
                                         && (Workout.userId w =? uid))
                               (workouts st))
          (exercises st).

(** [data: exerciseData]: an absent [notes] is [undefined], which Prisma
    leaves unchanged; [progress] and [workoutId] are not in the data. *)
Definition update_row (x : exercise_input) (e : Exercise.t) : Exercise.t :=
  {| Exercise.id := Exercise.id e; Exercise.name := xi_name x;
     Exercise.sets := xi_sets x; Exercise.reps := xi_reps x;
     Exercise.weight := xi_weight x; Exercise.progress := Exercise.progress e;
     Exercise.notes := match xi_notes x with
                       | Some n => Some n
                       | None => Exercise.notes e
                       end;
     Exercise.workoutId := Exercise.workoutId e |}.

(** [prisma.exercise.delete({ where: { id } })]: nothing references an
    Exercise. *)
Definition exercise_delete (st : db) (eid : Z) : presult db :=
  if existsb (fun e => Exercise.id e =? eid) (exercises st)
  then POk (set_exercises st (filter (fun e => negb (Exercise.id e =? eid))
                                     (exercises st)))
  else PErr RecordNotFound.

(** Responses of [PUT /:id]. *)
Inductive exercise_response :=
| ExInvalid (issues : list zpath)   (* 400, ZodError *)
| ExNotFound                        (* 404 *)
| ExFailed                          (* 500 *)
| ExOk (e : Exercise.t).            (* 200 *)

(** [DELETE /:id] of the exercise router. *)
Definition delete_exercise_route (st : db) (uid : Z) (id : string) : Z * db :=
  match parse_int id with
  | NaN => (500, st)
  | Num eid =>
      if negb (exercise_owned st uid eid) then (404, st)
      else match exercise_delete st eid with
           | POk st' => (204, st')
           | PErr _ => (500, st)
           end
  end.

Section ExerciseUpdate.
Variable prisma_int : number -> bool.

(** [prisma.exercise.update({ where: { id }, data: exerciseData })]: [sets]
    and [reps] are [Int] columns, [weight] a [Float]. *)
Definition exercise_update (st : db) (eid : Z) (x : exercise_input)
  : presult (db * Exercise.t) :=
  if negb (prisma_int (xi_sets x) && prisma_int (xi_reps x))
  then PErr InvalidArgument
  else
    match find (fun e => Exercise.id e =? eid) (exercises st) with
    | None => PErr RecordNotFound
    | Some e =>
        POk (set_exercises st
               (map (fun e' => if Exercise.id e' =? eid then update_row x e'
                               else e') (exercises st)),
             update_row x e)
    end.

(** [PUT /:id]: the body is parsed before the ownership check. *)
Definition update_exercise_route (st : db) (uid : Z) (id : string)
  (body : jval) : exercise_response * db :=
  match exerciseSchema_parse body with
  | ZErr issues => (ExInvalid issues, st)
  | ZOk x =>
      match parse_int id with
      | NaN => (ExFailed, st)
      | Num eid =>
          if negb (exercise_owned st uid eid) then (ExNotFound, st)
          else match exercise_update st eid x with
               | POk (st', e) => (ExOk e, st')
               | PErr _ => (ExFailed, st)
               end
      end
  end.
End ExerciseUpdate.

(* ------------------------------------------------------------------ *)
(** ** [prisma.workout.create] and the [POST /] of auth.ts *)

(** The [data] of [prisma.workout.create]: [category] is [None] when the
    call omits it. *)
Record workout_data := {
  wd_name : string;
  wd_category : option string;
  wd_userId : Z;
  wd_scheduleType : string;
  wd_scheduleDays : string;
  wd_frequency : number;
  wd_exercises : list exercise_input
}.

(** The older [workoutSchema] of auth.ts, without [category]. *)
Record workout_input_v1 := {
  wv_name : string;
  wv_exercises : list exercise_input;
  wv_schedule : schedule_input
}.

Definition workoutSchema_v1_parse (body : jval) : zres workout_input_v1 :=
  match body with
  | JObj _ =>
      zap (zap (zap (ZOk Build_workout_input_v1)
        (z_string [PKey "name"] (jget "name" body)))
        (z_array z_exercise [PKey "exercises"] (jget "exercises" body)))
        (z_schedule [PKey "schedule"] (jget "schedule" body))
  | _ => ZErr [[]]
  end.

Section PrismaCreate.
Variable prisma_int : number -> bool.

(** [prisma.workout.create({ data, include: { exercises: true } })]: the
    required [category] column has no default, so a [data] without it is
    rejected before the query, as is a non-[Int] [frequency], [sets] or
    [reps]. *)
Definition workout_create_data (st : db) (data : workout_data)
  : presult (db * Workout.t) :=
  match wd_category data with
  | None => PErr InvalidArgument
  | Some category =>
      if negb (prisma_int (wd_frequency data)
               && forallb (fun x => prisma_int (xi_sets x)
                                    && prisma_int (xi_reps x))
                          (wd_exercises data))
      then PErr InvalidArgument
      else
        let wid := next_workout_id st in
        let w := {| Workout.id := wid; Workout.name := wd_name data;
                    Workout.category := category;
                    Workout.userId := wd_userId data;
                    Workout.scheduleType := wd_scheduleType data;
                    Workout.scheduleDays := wd_scheduleDays data;
                    Workout.frequency := wd_frequency data |} in
        let es := exercise_rows wid (next_exercise_id st) (wd_exercises data) in
        POk ({| workouts := app (workouts st) [w];
                exercises := app (exercises st) es;
                logs := logs st;
                next_workout_id := wid + 1;
                next_exercise_id := next_exercise_id st
                                    + Z.of_nat (List.length (wd_exercises data));
                next_log_id := next_log_id st |}, w)
  end.

(** The [data] built by the [POST /] of workouts.ts. *)
Definition workout_data_of (uid : Z) (d : workout_input) : workout_data :=
  {| wd_name := wi_name d; wd_category := Some (wi_category d);
     wd_userId := uid; wd_scheduleType := sc_type (wi_schedule d);
     wd_scheduleDays := serialize_days (sc_days (wi_schedule d));
     wd_frequency := sc_frequency (wi_schedule d);
     wd_exercises := wi_exercises d |}.

(** [POST /] of auth.ts: the same create, with no [category] in [data]. *)
Definition create_workout_v1_route (st : db) (uid : Z) (body : jval)
  : create_response * db :=
  match workoutSchema_v1_parse body with
  | ZErr issues => (CreateInvalid issues, st)
  | ZOk d =>
      let data := {| wd_name := wv_name d; wd_category := None;
                     wd_userId := uid;
                     wd_scheduleType := sc_type (wv_schedule d);
                     wd_scheduleDays := serialize_days (sc_days (wv_schedule d));
                     wd_frequency := sc_frequency (wv_schedule d);
                     wd_exercises := wv_exercises d |} in
      match workout_create_data st data with
      | POk (st', w) => (CreateOk (parseWorkoutScheduleDays st' w), st')
      | PErr _ => (CreateFailed, st)
      end
  end.
End PrismaCreate.

(* ------------------------------------------------------------------ *)
(** ** Registration and login (auth.ts) *)

Module User.
Record t := {
  id : Z;
  email : string;
  name : string;
  password : string
}.
End User.

(** The User table, in rowid order, with its next id. *)
Record user_db := {
  users : list User.t;
  next_user_id : Z
}.

(** Responses of [POST /register] and [POST /login]. *)
Inductive auth_response :=
| AuthInvalid (issues : list zpath)              (* 400, ZodError *)
| AuthRejected (error : string)                  (* 400 *)
| AuthFailed                                     (* 500 *)
| AuthOk (token : string) (id : Z) (email name : string).   (* 200 *)

Section Auth.
(** [z.string().email()]'s test. *)
Variable is_email : string -> bool.
(** [bcrypt.hash(password, 10)] with the random salt drawn for the call. *)
Variable bcrypt_hash : Z -> string -> string.
(** [bcrypt.compare(password, hash)]. *)
Variable bcrypt_compare : string -> string -> bool.
(** [jwt.sign({ id, email }, process.env.JWT_SECRET!, { expiresIn: '7d' })]. *)
Variable jwt_sign : Z -> string -> string.

Definition z_checked_string (ok : string -> bool) (path : zpath)
  (v : option jval) : zres string :=
  match v with
  | Some (JStr s) => if ok s then ZOk s else ZErr [path]
  | _ => ZErr [path]
  end.

(** [z.string().min(n)]. *)
Definition min_length (n : nat) (s : string) : bool := Nat.leb n (String.length s).

(** [registerSchema.parse(req.body)]: email, password and name. *)
Definition registerSchema_parse (body : jval) : zres (string * string * string) :=
  match body with
  | JObj _ =>
      zap (zap (zap (ZOk (fun e p n => (e, p, n)))
        (z_checked_string is_email [PKey "email"] (jget "email" body)))
        (z_checked_string (min_length 6) [PKey "password"]
                          (jget "password" body)))
        (z_checked_string (min_length 2) [PKey "name"] (jget "name" body))
  | _ => ZErr [[]]
  end.

(** [loginSchema.parse(req.body)]: email and password. *)
Definition loginSchema_parse (body : jval) : zres (string * string) :=
  match body with
  | JObj _ =>
      zap (zap (ZOk (fun e p => (e, p)))
        (z_checked_string is_email [PKey "email"] (jget "email" body)))
        (z_string [PKey "password"] (jget "password" body))
  | _ => ZErr [[]]
  end.

(** [prisma.user.findUnique({ where: { email } })]. *)
Definition user_by_email (us : user_db) (email : string) : option User.t :=
  find (fun u => String.eqb (User.email u) email) (users us).

(** [prisma.user.create]: [email] is [@unique]; [None] is the unique
    constraint failure (P2002). *)
Definition user_create (us : user_db) (email name password : string)
  : option (user_db * User.t) :=
  match user_by_email us email with
  | Some _ => None
  | None =>
      let u := {| User.id := next_user_id us; User.email := email;
                  User.name := name; User.password := password |} in
      Some ({| users := app (users us) [u]; next_user_id := next_user_id us + 1 |},
            u)
  end.

(** [POST /register]; [salt] is the salt [bcrypt.hash] draws. *)
Definition register_route (us : user_db) (salt : Z) (body : jval)
  : auth_response * user_db :=
  match registerSchema_parse body with
  | ZErr issues => (AuthInvalid issues, us)
  | ZOk (email, password, name) =>
      match user_by_email us email with
      | Some _ => (AuthRejected "Email already registered", us)
      | None =>
          match user_create us email name (bcrypt_hash salt password) with
          | Some (us', u) =>
              (AuthOk (jwt_sign (User.id u) (User.email u)) (User.id u)
                      (User.email u) (User.name u), us')
          | None => (AuthFailed, us)
          end
      end
  end.

(** [POST /login]. *)
Definition login_route (us : user_db) (body : jval) : auth_response :=
  match loginSchema_parse body with
  | ZErr issues => AuthInvalid issues
  | ZOk (email, password) =>
      match user_by_email us email with
      | None => AuthRejected "Invalid credentials"
      | Some u =>
          if bcrypt_compare password (User.password u)
          then AuthOk (jwt_sign (User.id u) (User.email u)) (User.id u)
                      (User.email u) (User.name u)
          else AuthRejected "Invalid credentials"
      end
  end.
End Auth.

(* ------------------------------------------------------------------ *)
(** ** Ordered log queries *)

Lemma insert_desc_sorted_cons (a x : WorkoutLog.t) (ls : list WorkoutLog.t) :
  sorted_desc (a :: ls) = true -> WorkoutLog.date x <= WorkoutLog.date a ->
  sorted_desc (a :: insert_desc x ls) = true.
Proof.
  revert a. induction ls as [|b ls IH]; intros a Hs Hx.
  - cbn. apply andb_true_iff. split; [apply Z.leb_le; lia | reflexivity].
  - cbn [insert_desc]. cbn [sorted_desc] in Hs.
    apply andb_true_iff in Hs as [Hba Hs]. apply Z.leb_le in Hba.
    destruct (Z.ltb_spec (WorkoutLog.date b) (WorkoutLog.date x)) as [Hlt|Hge].
    + cbn [sorted_desc]. rewrite Hs.
      apply andb_true_iff; split; [apply Z.leb_le; lia|].
      apply andb_true_iff; split; [apply Z.leb_le; lia | reflexivity].
    + change (sorted_desc (a :: b :: insert_desc x ls))
        with ((WorkoutLog.date b <=? WorkoutLog.date a)
              && sorted_desc (b :: insert_desc x ls)).
      apply andb_true_iff; split; [apply Z.leb_le; lia|].
      apply IH; [exact Hs | lia].
Qed.

Lemma insert_desc_sorted (x : WorkoutLog.t) (ls : list WorkoutLog.t) :
  sorted_desc ls = true -> sorted_desc (insert_desc x ls) = true.
Proof.
  destruct ls as [|b ls]; intros Hs; [reflexivity|].
  cbn [insert_desc].
  destruct (Z.ltb_spec (WorkoutLog.date b) (WorkoutLog.date x)) as [Hlt|Hge].
  - change (sorted_desc (x :: b :: ls))
      with ((WorkoutLog.date b <=? WorkoutLog.date x) && sorted_desc (b :: ls)).
    rewrite Hs. apply andb_true_iff; split; [apply Z.leb_le; lia | reflexivity].
  - apply insert_desc_sorted_cons; [exact Hs | lia].
Qed.

Lemma sort_date_desc_sorted (ls : list WorkoutLog.t) :
  sorted_desc (sort_date_desc ls) = true.
Proof.
  induction ls as [|x ls IH]; [reflexivity|].
  apply insert_desc_sorted, IH.
Qed.





(* ------------------------------------------------------------------ *)
(** ** The database invariant under the writes *)

(** Keeping some rows keeps their keys distinct. *)
Lemma keys_distinct_filter {A K : Type} (key : A -> K) (keep : A -> bool)
  (rows : list A) :
  NoDup (map key rows) -> NoDup (map key (filter keep rows)).
Proof.
  intros H. induction rows as [|r rows IH]; [constructor|].
  simpl in H. inversion H as [|? ? Hnin Hnd]; subst. simpl.
  destruct (keep r); [|exact (IH Hnd)].
  simpl. constructor; [|exact (IH Hnd)].
  intros Hin. apply Hnin. apply in_map_iff in Hin as (b & Hb & Hin).
  apply filter_In in Hin as [Hin _]. rewrite <- Hb. now apply in_map.
Qed.

Lemma forall_filter {A : Type} (P : A -> Prop) (p : A -> bool) (l : list A) :
  Forall P l -> Forall P (filter p l).
Proof.
  rewrite !Forall_forall. intros H x Hx. apply filter_In in Hx as [Hx _].
  auto.
Qed.

Lemma nodup_app_disjoint {A : Type} (l1 l2 : list A) :
  NoDup l1 -> NoDup l2 -> (forall a, In a l1 -> ~ In a l2) -> NoDup (l1 ++ l2).
Proof.
  induction l1 as [|a l1 IH]; simpl; intros H1 H2 Hd; [exact H2|].
  inversion H1 as [|? ? Hnin Hnd]; subst. constructor.
  - rewrite in_app_iff. intros [Hin|Hin]; [contradiction|].
    exact (Hd a (or_introl eq_refl) Hin).
  - apply IH; auto.
Qed.

(** Ids below a bound are disjoint from ids at or above it. *)
Lemma nodup_app_below {A : Type} (f : A -> Z) (l1 l2 : list A) (n : Z) :
  NoDup (map f l1) -> NoDup (map f l2) ->
  Forall (fun a => f a < n) l1 -> Forall (fun a => n <= f a) l2 ->
  NoDup (map f (l1 ++ l2)).
Proof.
  intros H1 H2 B1 B2. rewrite map_app. apply nodup_app_disjoint; auto.
  intros a Ha Hb.
  apply in_map_iff in Ha as (x & <- & Hx). apply in_map_iff in Hb as (y & Hy & Hy').
  rewrite Forall_forall in B1, B2. specialize (B1 x Hx). specialize (B2 y Hy').
  lia.
Qed.

Lemma forall_weaken_lt {A : Type} (f : A -> Z) (l : list A) (n m : Z) :
  n <= m -> Forall (fun a => f a < n) l -> Forall (fun a => f a < m) l.
Proof.
  intros Hnm H. eapply Forall_impl; [|exact H]. simpl. intros a Ha. lia.
Qed.

Lemma workout_exists_In (st : db) (x : Z) :
  workout_exists st x = true <-> exists w, In w (workouts st) /\ Workout.id w = x.
Proof.
  unfold workout_exists. rewrite existsb_exists.
  split; intros (w & Hin & H); exists w; split; auto; now apply Z.eqb_eq.
Qed.

Lemma workout_exists_below (st : db) (x : Z) :
  Forall (fun w => Workout.id w < next_workout_id st) (workouts st) ->
  workout_exists st x = true -> x < next_workout_id st.
Proof.
  intros B Hx. apply workout_exists_In in Hx as (w & Hin & <-).
  rewrite Forall_forall in B. auto.
Qed.

Lemma exercise_rows_ids (wid next : Z) (xs : list exercise_input) :
  NoDup (map Exercise.id (exercise_rows wid next xs))
  /\ Forall (fun e => next <= Exercise.id e
                      /\ Exercise.id e < next + Z.of_nat (List.length xs))
            (exercise_rows wid next xs).
Proof.
  revert next. induction xs as [|x xs IH]; intros next; simpl.
  - split; constructor.
  - destruct (IH (next + 1)) as [Hnd Hb]. split.
    + constructor; [|exact Hnd].
      intros Hin. apply in_map_iff in Hin as (e & He & Hin).
      rewrite Forall_forall in Hb. specialize (Hb e Hin). simpl in He. lia.
    + constructor; [simpl; lia|].
      eapply Forall_impl; [|exact Hb]. simpl. intros e He. lia.
Qed.

Lemma exercise_rows_fields (wid next : Z) (xs : list exercise_input) :
  Forall (fun e => Exercise.workoutId e = wid /\ Exercise.progress e = 0)
         (exercise_rows wid next xs)
  /\ map Exercise.name (exercise_rows wid next xs) = map xi_name xs.
Proof.
  revert next. induction xs as [|x xs IH]; intros next; simpl.
  - split; [constructor | reflexivity].
  - destruct (IH (next + 1)) as [Hf Hn]. split.
    + constructor; [simpl; auto | exact Hf].
    + now rewrite Hn.
Qed.

Ltac db_ok_parts H :=
  destruct H as (Hw & He & Hl & Bw & Be & Bl & Re & Rl).

Lemma db_ok_exercises_filter (st : db) (p : Exercise.t -> bool) :
  db_ok st -> db_ok (set_exercises st (filter p (exercises st))).
Proof.
  intros H. db_ok_parts H. unfold db_ok, set_exercises; cbn.
  repeat split; auto using keys_distinct_filter, forall_filter.
Qed.

Lemma db_ok_logs_filter (st : db) (p : WorkoutLog.t -> bool) :
  db_ok st -> db_ok (set_logs st (filter p (logs st))).
Proof.
  intros H. db_ok_parts H. unfold db_ok, set_logs; cbn.
  repeat split; auto using keys_distinct_filter, forall_filter.
Qed.

Lemma existsb_false_forall {A : Type} (f : A -> bool) (l : list A) (x : A) :
  existsb f l = false -> In x l -> f x = false.
Proof.
  intros H Hin. destruct (f x) eqn:Hf; [|reflexivity].
  assert (existsb f l = true) by (apply existsb_exists; eauto). congruence.
Qed.

Lemma workout_exists_filter (st : db) (wid x : Z) :
  workout_exists st x = true -> x <> wid ->
  existsb (fun w => Workout.id w =? x)
          (filter (fun w => negb (Workout.id w =? wid)) (workouts st)) = true.
Proof.
  intros Hx Hne. apply workout_exists_In in Hx as (w & Hin & Hid).
  apply existsb_exists. exists w. split.
  - apply filter_In. split; [exact Hin|]. rewrite Hid.
    now apply negb_true_iff, Z.eqb_neq.
  - now apply Z.eqb_eq.
Qed.

Lemma db_ok_workout_delete (st st' : db) (wid : Z) :
  db_ok st -> workout_delete wid st = POk st' -> db_ok st'.
Proof.
  intros H Hdel. unfold workout_delete in Hdel.
  destruct (negb (workout_exists st wid)); [discriminate|].
  destruct (existsb _ (exercises st)) eqn:HE; [discriminate|].
  destruct (existsb _ (logs st)) eqn:HL; [discriminate|].
  injection Hdel as <-. db_ok_parts H. unfold db_ok, set_workouts; cbn.
  repeat split; auto using keys_distinct_filter, forall_filter.
  - rewrite Forall_forall in Re |- *. intros e Hin.
    apply workout_exists_filter; [now apply Re|].
    pose proof (existsb_false_forall _ _ _ HE Hin). now apply Z.eqb_neq.
  - rewrite Forall_forall in Rl |- *. intros l Hin.
    apply workout_exists_filter; [now apply Rl|].
    pose proof (existsb_false_forall _ _ _ HL Hin). now apply Z.eqb_neq.
Qed.

Lemma db_ok_workoutLog_create (st st' : db) (uid wid t : Z) (ex : jval)
  (l : WorkoutLog.t) :
  db_ok st -> workoutLog_create st uid wid t ex = POk (st', l) -> db_ok st'.
Proof.
  intros H Hc. unfold workoutLog_create in Hc.
  destruct (workout_exists st wid) eqn:Hex; [|discriminate].
  injection Hc as <- <-. db_ok_parts H. unfold db_ok; cbn.
  repeat split; auto.
  - apply nodup_app_below with (n := next_log_id st); auto.
    + constructor; [intros []|constructor].
    + constructor; [cbn; lia | constructor].
  - apply Forall_app. split.
    + eapply forall_weaken_lt; [|exact Bl]. lia.
    + constructor; [cbn; lia | constructor].
  - apply Forall_app. split; [exact Rl|]. constructor; [exact Hex | constructor].
Qed.

Lemma workout_exists_app (st : db) (ws : list Workout.t) (x : Z) :
  workout_exists st x = true ->
  existsb (fun w => Workout.id w =? x) (workouts st ++ ws) = true.
Proof.
  intros Hx. rewrite existsb_app. unfold workout_exists in Hx. now rewrite Hx.
Qed.

Lemma db_ok_workout_create_data (prisma_int : number -> bool) (st st' : db)
  (data : workout_data) (w : Workout.t) :
  db_ok st -> workout_create_data prisma_int st data = POk (st', w) -> db_ok st'.
Proof.
  intros H Hc. unfold workout_create_data in Hc.
  destruct (wd_category data) as [cat|]; [|discriminate].
  destruct (negb _); [discriminate|].
  injection Hc as <- <-. db_ok_parts H.
  destruct (exercise_rows_ids (next_workout_id st) (next_exercise_id st)
                              (wd_exercises data)) as [Rn Rb].
  destruct (exercise_rows_fields (next_workout_id st) (next_exercise_id st)
                                 (wd_exercises data)) as [Rf _].
  unfold db_ok; cbn. repeat split.
  - apply nodup_app_below with (n := next_workout_id st); auto.
    + constructor; [intros []|constructor].
    + constructor; [cbn; lia | constructor].
  - apply nodup_app_below with (n := next_exercise_id st); auto.
    eapply Forall_impl; [|exact Rb]. simpl. intros e Hr. lia.
  - exact Hl.
  - apply Forall_app. split.
    + eapply forall_weaken_lt; [|exact Bw]. lia.
    + constructor; [cbn; lia | constructor].
  - apply Forall_app. split.
    + eapply forall_weaken_lt; [|exact Be]. lia.
    + eapply Forall_impl; [|exact Rb]. simpl. intros e Hr. lia.
  - exact Bl.
  - apply Forall_app. split.
    + rewrite Forall_forall in Re |- *. intros e Hin.
      apply workout_exists_app, Re, Hin.
    + rewrite Forall_forall in Rf |- *. intros e Hin.
      destruct (Rf e Hin) as [Hwid _]. rewrite Hwid, existsb_app. cbn.
      rewrite Z.eqb_refl. apply orb_true_r.
  - rewrite Forall_forall in Rl |- *. intros l Hin.
    apply workout_exists_app, Rl, Hin.
Qed.

Lemma update_row_keys (x : exercise_input) (eid : Z) (e : Exercise.t) :
  let e' := if Exercise.id e =? eid then update_row x e else e in
  Exercise.id e' = Exercise.id e /\ Exercise.workoutId e' = Exercise.workoutId e.
Proof. simpl. destruct (_ =? _); auto. Qed.

Lemma db_ok_exercise_update (prisma_int : number -> bool) (st st' : db) (eid : Z)
  (x : exercise_input) (e : Exercise.t) :
  db_ok st -> exercise_update prisma_int st eid x = POk (st', e) -> db_ok st'.
Proof.
  intros H Hu. unfold exercise_update in Hu.
  destruct (negb _); [discriminate|].
  destruct (find _ _); [|discriminate].
  injection Hu as <- _. db_ok_parts H. unfold db_ok, set_exercises; cbn.
  set (g := fun e' => if Exercise.id e' =? eid then update_row x e' else e').
  assert (Hid : map Exercise.id (map g (exercises st)) = map Exercise.id (exercises st)).
  { rewrite map_map. apply map_ext. intros a. apply (update_row_keys x eid a). }
  repeat split; auto.
  - now rewrite Hid.
  - rewrite Forall_map. eapply Forall_impl; [|exact Be]. intros a Ha.
    unfold g. destruct (_ =? _); exact Ha.
  - rewrite Forall_map. eapply Forall_impl; [|exact Re]. intros a Ha.
    unfold g. destruct (_ =? _); exact Ha.
Qed.

Lemma workout_create_as_data (prisma_int : number -> bool) (st : db) (uid : Z)
  (d : workout_input) :
  workout_create prisma_int st uid d
  = workout_create_data prisma_int st (workout_data_of uid d).
Proof. reflexivity. Qed.

(** Case analysis on the matches of a route, down to its Prisma calls. *)
Ltac route_cases :=
  repeat match goal with
         | |- context [match ?x with _ => _ end] => destruct x eqn:?
         end; simpl.

Lemma create_workout_route_db_ok (prisma_int : number -> bool) (st : db) (uid : Z)
  (body : jval) :
  db_ok st -> db_ok (snd (create_workout_route prisma_int st uid body)).
Proof.
  intros H. unfold create_workout_route.
  destruct (workoutSchema_parse body) as [d|issues]; [|exact H].
  rewrite workout_create_as_data.
  destruct (workout_create_data _ _ _) as [[st' w]|e] eqn:E; [|exact H].
  exact (db_ok_workout_create_data _ _ _ _ _ H E).
Qed.

Lemma create_workout_v1_route_db_ok (prisma_int : number -> bool) (st : db)
  (uid : Z) (body : jval) :
  db_ok st -> db_ok (snd (create_workout_v1_route prisma_int st uid body)).
Proof.
  intros H. unfold create_workout_v1_route.
  destruct (workoutSchema_v1_parse body) as [d|issues]; [|exact H].
  destruct (workout_create_data _ _ _) as [[st' w]|e] eqn:E; [|exact H].
  exact (db_ok_workout_create_data _ _ _ _ _ H E).
Qed.

Lemma log_workout_route_db_ok (now : Z) (st : db) (uid : Z) (id : string)
  (body : jval) :
  db_ok st -> db_ok (snd (fst (log_workout_route now st uid id body))).
Proof.
  intros H. unfold log_workout_route.
  destruct (parse_int id) as [wid|]; [|exact H].
  destruct (json_column _) as [ex|]; [|exact H].
  destruct (workoutLog_create st uid wid now ex) as [[st' l]|e] eqn:E; [|exact H].
  exact (db_ok_workoutLog_create _ _ _ _ _ _ _ H E).
Qed.

Lemma post_logs_route_db_ok (new_date : jval -> option Z) (st : db) (uid : Z)
  (body : jval) :
  db_ok st -> db_ok (snd (fst (post_logs_route new_date st uid body))).
Proof.
  intros H. unfold post_logs_route.
  destruct (negb _); [exact H|].
  destruct (jget "date" body) as [dv|]; [|exact H].
  destruct (jget "exercises" body) as [ex|]; [|exact H].
  destruct (jget "workoutId" body) as [wv|]; [|exact H].
  destruct (new_date dv) as [t|]; [|exact H].
  destruct (parse_int (js_string_of wv)) as [wid|]; [|exact H].
  destruct (workoutLog_create st uid wid t ex) as [[st' l]|e] eqn:E; [|exact H].
  exact (db_ok_workoutLog_create _ _ _ _ _ _ _ H E).
Qed.

Lemma delete_workout_route_db_ok (st : db) (uid : Z) (id : string) :
  db_ok st -> db_ok (snd (delete_workout_route st uid id)).
Proof.
  intros H. unfold delete_workout_route.
  destruct (parse_int id) as [wid|]; [|exact H].
  pose proof (db_ok_exercises_filter st
                (fun e => negb (Exercise.workoutId e =? wid)) H) as H1.
  destruct (workout_delete wid (exercise_deleteMany wid st)) as [st2|e] eqn:E.
  - exact (db_ok_workout_delete _ _ _ H1 E).
  - exact H1.
Qed.

Lemma delete_workout_tx_route_db_ok (st : db) (uid : Z) (id : string) :
  db_ok st -> db_ok (snd (delete_workout_tx_route st uid id)).
Proof.
  intros H. unfold delete_workout_tx_route.
  destruct (parse_int id) as [wid|]; [|exact H].
  destruct (negb _); [exact H|].
  pose proof (db_ok_logs_filter st
                (fun l => negb (WorkoutLog.workoutId l =? wid)) H) as H1.
  pose proof (db_ok_exercises_filter (workoutLog_deleteMany wid st)
                (fun e => negb (Exercise.workoutId e =? wid)) H1) as H2.
  destruct (workout_delete wid _) as [st3|e] eqn:E.
  - exact (db_ok_workout_delete _ _ _ H2 E).
  - exact H.
Qed.

Lemma update_exercise_route_db_ok (prisma_int : number -> bool) (st : db) (uid : Z)
  (id : string) (body : jval) :
  db_ok st -> db_ok (snd (update_exercise_route prisma_int st uid id body)).
Proof.
  intros H. unfold update_exercise_route.
  destruct (exerciseSchema_parse body) as [x|issues]; [|exact H].
  destruct (parse_int id) as [eid|]; [|exact H].
  destruct (negb _); [exact H|].
  destruct (exercise_update prisma_int st eid x) as [[st' e]|err] eqn:E; [|exact H].
  exact (db_ok_exercise_update _ _ _ _ _ _ H E).
Qed.

Lemma delete_exercise_route_db_ok (st : db) (uid : Z) (id : string) :
  db_ok st -> db_ok (snd (delete_exercise_route st uid id)).
Proof.
  intros H. unfold delete_exercise_route.
  destruct (parse_int id) as [eid|]; [|exact H].
  destruct (negb _); [exact H|].
  unfold exercise_delete. destruct (existsb _ _); [|exact H].
  apply db_ok_exercises_filter, H.
Qed.

(** X11: every write route of workouts.ts keeps the database invariant:
    unique ids below the autoincrement counters and no dangling
    [workoutId]. *)
Theorem workouts_routes_keep_db_ok (st : db) :
  db_ok st ->
  (forall prisma_int uid body,
      db_ok (snd (create_workout_route prisma_int st uid body)))
  /\ (forall now uid id body,
      db_ok (snd (fst (log_workout_route now st uid id body))))
  /\ (forall new_date uid body,
      db_ok (snd (fst (post_logs_route new_date st uid body))))
  /\ (forall uid id, db_ok (snd (delete_workout_route st uid id))).
Proof.
  intros H. split; [|split; [|split]]; intros.
  - now apply create_workout_route_db_ok.
  - now apply log_workout_route_db_ok.
  - now apply post_logs_route_db_ok.
  - now apply delete_workout_route_db_ok.
Qed.

(** X12: every write route of auth.ts's workout and exercise routers keeps
    the database invariant. *)
Theorem auth_routes_keep_db_ok (st : db) :
  db_ok st ->
  (forall prisma_int uid body,
      db_ok (snd (create_workout_v1_route prisma_int st uid body)))
  /\ (forall uid id, db_ok (snd (delete_workout_tx_route st uid id)))
  /\ (forall prisma_int uid id body,
      db_ok (snd (update_exercise_route prisma_int st uid id body)))
  /\ (forall uid id, db_ok (snd (delete_exercise_route st uid id))).
Proof.
  intros H. split; [|split; [|split]]; intros.
  - now apply create_workout_v1_route_db_ok.
  - now apply delete_workout_tx_route_db_ok.
  - now apply update_exercise_route_db_ok.
  - now apply delete_exercise_route_db_ok.
Qed.

(** The sample database [push_db [thu_log; fri_log]] satisfies the
    invariant. *)
Lemma push_db_ok : db_ok (push_db [thu_log; fri_log]).
Proof.
  unfold db_ok. vm_compute.
  repeat split; repeat constructor; simpl; intuition discriminate.
Qed.

Lemma workouts_routes_keep_db_ok_witness :
  db_ok (push_db [thu_log; fri_log])
  /\ db_ok (snd (create_workout_route int32 (push_db [thu_log; fri_log]) 1
                  (workout_body "weekly" [int 1; int 3])))
  /\ db_ok (snd (fst (log_workout_route server_now (push_db [thu_log; fri_log])
                        1 "1" session_body)))
  /\ db_ok (snd (fst (post_logs_route example_new_date
                        (push_db [thu_log; fri_log]) 1 session_body)))
  /\ db_ok (snd (delete_workout_route (push_db [thu_log; fri_log]) 1 "1")).
Proof.
  destruct (workouts_routes_keep_db_ok _ push_db_ok) as (H1 & H2 & H3 & H4).
  split; [exact push_db_ok|]. auto.
Defined.

Lemma auth_routes_keep_db_ok_witness :
  db_ok (push_db [thu_log; fri_log])
  /\ db_ok (snd (create_workout_v1_route int32 (push_db [thu_log; fri_log]) 1
                  (workout_body "weekly" [int 1; int 3])))
  /\ db_ok (snd (delete_workout_tx_route (push_db [thu_log; fri_log]) 1 "1"))
  /\ db_ok (snd (update_exercise_route int32 (push_db [thu_log; fri_log]) 1 "1"
                  bench_result))
  /\ db_ok (snd (delete_exercise_route (push_db [thu_log; fri_log]) 1 "1")).
Proof.
  destruct (auth_routes_keep_db_ok _ push_db_ok) as (H1 & H2 & H3 & H4).
  split; [exact push_db_ok|]. auto.
Defined.

(** X7: [GET /logs/:date] lists its rows latest first and, on a database
    satisfying the invariant, attaches to each row the name and category
    of the workout it references. *)
Theorem logs_for_date_rows (z : zone) (st : db) (uid y m d : Z) :
  db_ok st ->
  sorted_desc (map fst (logs_for_date_route z st uid y m d)) = true
  /\ forall l p, In (l, p) (logs_for_date_route z st uid y m d) ->
     exists w, In w (workouts st) /\ Workout.id w = WorkoutLog.workoutId l
               /\ p = Some (Workout.name w, Workout.category w).
Proof.
  intros H. db_ok_parts H. unfold logs_for_date_route. split.
  - rewrite map_map. simpl. rewrite map_id. apply sort_date_desc_sorted.
  - intros l p Hin. apply in_map_iff in Hin as (l' & Heq & Hin).
    injection Heq as <- <-.
    apply sort_date_desc_In, filter_In in Hin as [Hin _].
    rewrite Forall_forall in Rl. specialize (Rl l' Hin).
    unfold workout_projection.
    destruct (find (fun w => Workout.id w =? WorkoutLog.workoutId l')
                   (workouts st)) as [w|] eqn:F.
    + apply find_some in F as [Fin Fid]. exists w.
      repeat split; [exact Fin | now apply Z.eqb_eq].
    + exfalso. apply workout_exists_In in Rl as (w & Win & Wid).
      pose proof (find_none _ _ F w Win) as Hf. simpl in Hf.
      rewrite Wid, Z.eqb_refl in Hf. discriminate.
Qed.

Lemma logs_for_date_rows_witness :
  db_ok (push_db [thu_log; fri_log])
  /\ sorted_desc (map fst (logs_for_date_route sao_paulo
                             (push_db [thu_log; fri_log]) 1 2024 3 15)) = true
  /\ forall l p, In (l, p) (logs_for_date_route sao_paulo
                              (push_db [thu_log; fri_log]) 1 2024 3 15) ->
     exists w, In w (workouts (push_db [thu_log; fri_log]))
               /\ Workout.id w = WorkoutLog.workoutId l
               /\ p = Some (Workout.name w, Workout.category w).
Proof. split; [exact push_db_ok|]. apply logs_for_date_rows, push_db_ok. Defined.

(* ------------------------------------------------------------------ *)
(** ** [POST /] of workouts.ts *)

Lemma filter_all_false {A : Type} (f : A -> bool) (l : list A) :
  (forall x, In x l -> f x = false) -> filter f l = [].
Proof.
  induction l as [|a l IH]; simpl; intros H; [reflexivity|].
  rewrite (H a (or_introl eq_refl)). apply IH. auto.
Qed.

Lemma filter_all_true {A : Type} (f : A -> bool) (l : list A) :
  (forall x, In x l -> f x = true) -> filter f l = l.
Proof.
  induction l as [|a l IH]; simpl; intros H; [reflexivity|].
  rewrite (H a (or_introl eq_refl)). f_equal. apply IH. auto.
Qed.

Lemma exercise_rows_length (wid next : Z) (xs : list exercise_input) :
  List.length (exercise_rows wid next xs) = List.length xs.
Proof.
  revert next. induction xs as [|x xs IH]; intros next; simpl; auto.
Qed.

(** The outcome of a valid [POST /] body whose [Int]s Prisma accepts. *)
Lemma create_workout_route_ok (prisma_int : number -> bool) (st : db) (uid : Z)
  (body : jval) (d : workout_input) :
  workoutSchema_parse body = ZOk d -> input_ints_ok prisma_int d = true ->
  let w := {| Workout.id := next_workout_id st; Workout.name := wi_name d;
              Workout.category := wi_category d; Workout.userId := uid;
              Workout.scheduleType := sc_type (wi_schedule d);
              Workout.scheduleDays := serialize_days (sc_days (wi_schedule d));
              Workout.frequency := sc_frequency (wi_schedule d) |} in
  let st' := {| workouts := workouts st ++ [w];
                exercises := exercises st
                             ++ exercise_rows (next_workout_id st)
                                  (next_exercise_id st) (wi_exercises d);
                logs := logs st;
                next_workout_id := next_workout_id st + 1;
                next_exercise_id := next_exercise_id st
                                    + Z.of_nat (List.length (wi_exercises d));
                next_log_id := next_log_id st |} in
  create_workout_route prisma_int st uid body
  = (CreateOk (parseWorkoutScheduleDays st' w), st').
Proof.
  intros Hp Hi. unfold create_workout_route, workout_create.
  rewrite Hp, Hi. reflexivity.
Qed.

(** The input of [workout_body "weekly" [int 1; int 3]]. *)
Definition legs_input : workout_input :=
  {| wi_name := "Legs"; wi_category := "Legs";
     wi_exercises := [{| xi_name := "Bench"; xi_sets := int 3; xi_reps := int 10;
                         xi_weight := int 80; xi_notes := None |}];
     wi_schedule := {| sc_type := "weekly"; sc_days := [int 1; int 3];
                       sc_frequency := int 1 |} |}.

(** X3: after a successful [POST /], [GET /] of the caller ends with the
    created workout, whose [days] read back as the submitted non-empty
    list when every day is an integer [z] with [|z| < 10^21]. *)
Theorem create_then_get (prisma_int : number -> bool) (st : db) (uid : Z)
  (body : jval) (d : workout_input) (zs : list Z) :
  workoutSchema_parse body = ZOk d -> input_ints_ok prisma_int d = true ->
  Forall2 (fun x z => number_int x = Some z /\ Z.abs z < 10 ^ 21)
          (sc_days (wi_schedule d)) zs ->
  sc_days (wi_schedule d) <> [] ->
  exists pw st', create_workout_route prisma_int st uid body = (CreateOk pw, st')
  /\ pw_days pw = map Num zs
  /\ exists pre, get_workouts_route st' uid = pre ++ [pw].
Proof.
  intros Hp Hi Hz Hne. rewrite (create_workout_route_ok _ _ _ _ _ Hp Hi).
  do 2 eexists. split; [reflexivity|]. split.
  - apply parse_serialized_days; assumption.
  - unfold get_workouts_route. cbn [workouts]. rewrite filter_app. cbn.
    rewrite Z.eqb_refl, map_app. eexists. reflexivity.
Qed.

Lemma create_then_get_witness :
  workoutSchema_parse (workout_body "weekly" [int 1; int 3]) = ZOk legs_input
  /\ input_ints_ok int32 legs_input = true
  /\ Forall2 (fun x z => number_int x = Some z /\ Z.abs z < 10 ^ 21)
             (sc_days (wi_schedule legs_input)) [1; 3]
  /\ sc_days (wi_schedule legs_input) <> []
  /\ exists pw st', create_workout_route int32 empty_db 1
                      (workout_body "weekly" [int 1; int 3]) = (CreateOk pw, st')
     /\ pw_days pw = map Num [1; 3]
     /\ exists pre, get_workouts_route st' 1 = pre ++ [pw].
Proof.
  assert (H : Forall2 (fun x z => number_int x = Some z /\ Z.abs z < 10 ^ 21)
                      (sc_days (wi_schedule legs_input)) [1; 3])
    by (repeat constructor).
  split; [reflexivity|]. split; [reflexivity|]. split; [exact H|].
  split; [discriminate|].
  apply (create_then_get int32 empty_db 1 (workout_body "weekly" [int 1; int 3])
           legs_input [1; 3]); [reflexivity | reflexivity | exact H | discriminate].
Defined.

(** X4: on a database satisfying the invariant, a successful [POST /]
    creates the caller's workout with the next id, and the exercises it
    returns are exactly one new row per submitted exercise, in order, with
    progress 0. *)
Theorem create_workout_exercises (prisma_int : number -> bool) (st : db) (uid : Z)
  (body : jval) (d : workout_input) :
  db_ok st -> workoutSchema_parse body = ZOk d ->
  input_ints_ok prisma_int d = true ->
  exists pw st', create_workout_route prisma_int st uid body = (CreateOk pw, st')
  /\ Workout.id (pw_workout pw) = next_workout_id st
  /\ Workout.userId (pw_workout pw) = uid
  /\ List.length (pw_exercises pw) = List.length (wi_exercises d)
  /\ map Exercise.name (pw_exercises pw) = map xi_name (wi_exercises d)
  /\ Forall (fun e => Exercise.progress e = 0
                      /\ Exercise.workoutId e = Workout.id (pw_workout pw))
            (pw_exercises pw).
Proof.
  intros H Hp Hi. db_ok_parts H.
  rewrite (create_workout_route_ok _ _ _ _ _ Hp Hi).
  do 2 eexists. split; [reflexivity|]. cbn.
  destruct (exercise_rows_fields (next_workout_id st) (next_exercise_id st)
                                 (wi_exercises d)) as [Rf Rn].
  unfold exercises_of. cbn [exercises]. rewrite filter_app.
  rewrite (filter_all_false _ (exercises st)).
  2:{ intros e Hin. apply Z.eqb_neq. rewrite Forall_forall in Re.
      pose proof (workout_exists_below st _ Bw (Re e Hin)). lia. }
  rewrite filter_all_true.
  2:{ intros e Hin. rewrite Forall_forall in Rf.
      destruct (Rf e Hin) as [-> _]. apply Z.eqb_refl. }
  cbn [app]. repeat split; auto.
  - apply exercise_rows_length.
  - eapply Forall_impl; [|exact Rf]. simpl. tauto.
Qed.

Lemma create_workout_exercises_witness :
  db_ok (push_db [thu_log; fri_log])
  /\ workoutSchema_parse (workout_body "weekly" [int 1; int 3]) = ZOk legs_input
  /\ input_ints_ok int32 legs_input = true
  /\ exists pw st', create_workout_route int32 (push_db [thu_log; fri_log]) 1
                      (workout_body "weekly" [int 1; int 3]) = (CreateOk pw, st')
  /\ Workout.id (pw_workout pw) = next_workout_id (push_db [thu_log; fri_log])
  /\ Workout.userId (pw_workout pw) = 1
  /\ List.length (pw_exercises pw) = List.length (wi_exercises legs_input)
  /\ map Exercise.name (pw_exercises pw) = map xi_name (wi_exercises legs_input)
  /\ Forall (fun e => Exercise.progress e = 0
                      /\ Exercise.workoutId e = Workout.id (pw_workout pw))
            (pw_exercises pw).
Proof.
  split; [exact push_db_ok|]. split; [reflexivity|]. split; [reflexivity|].
  apply create_workout_exercises; [exact push_db_ok | reflexivity | reflexivity].
Defined.

(* ------------------------------------------------------------------ *)
(** ** Failed requests *)

(** Whether a [POST /] response is a success. *)
Definition create_ok (r : create_response) : bool :=
  match r with CreateOk _ => true | _ => false end.

Definition exercise_ok (r : exercise_response) : bool :=
  match r with ExOk _ => true | _ => false end.

Definition auth_ok (r : auth_response) : bool :=
  match r with AuthOk _ _ _ _ => true | _ => false end.

(** X5: every write route except the [DELETE /:id] of workouts.ts leaves
    the database unchanged when it does not succeed. *)
Theorem failed_requests_leave_db (st : db) (uid : Z) :
  (forall prisma_int body,
      create_ok (fst (create_workout_route prisma_int st uid body)) = true
      \/ snd (create_workout_route prisma_int st uid body) = st)
  /\ (forall prisma_int body,
      create_ok (fst (create_workout_v1_route prisma_int st uid body)) = true
      \/ snd (create_workout_v1_route prisma_int st uid body) = st)
  /\ (forall now id body,
      fst (fst (log_workout_route now st uid id body)) = 200
      \/ snd (fst (log_workout_route now st uid id body)) = st)
  /\ (forall new_date body,
      fst (fst (post_logs_route new_date st uid body)) = 200
      \/ snd (fst (post_logs_route new_date st uid body)) = st)
  /\ (forall id,
      fst (delete_workout_tx_route st uid id) = 200
      \/ snd (delete_workout_tx_route st uid id) = st)
  /\ (forall prisma_int id body,
      exercise_ok (fst (update_exercise_route prisma_int st uid id body)) = true
      \/ snd (update_exercise_route prisma_int st uid id body) = st)
  /\ (forall id,
      fst (delete_exercise_route st uid id) = 204
      \/ snd (delete_exercise_route st uid id) = st)
  /\ (forall is_email bcrypt_hash jwt_sign us salt body,
      auth_ok (fst (register_route is_email bcrypt_hash jwt_sign us salt body))
        = true
      \/ snd (register_route is_email bcrypt_hash jwt_sign us salt body) = us).
Proof.
  repeat split; intros.
  - unfold create_workout_route.
    destruct (workoutSchema_parse body); [|now right].
    destruct (workout_create _ _ _ _) as [[? ?]|?]; [left; reflexivity | now right].
  - unfold create_workout_v1_route.
    destruct (workoutSchema_v1_parse body); [|now right].
    destruct (workout_create_data _ _ _) as [[? ?]|?]; [left; reflexivity | now right].
  - unfold log_workout_route.
    destruct (parse_int id); [|now right]. destruct (json_column _); [|now right].
    destruct (workoutLog_create _ _ _ _ _) as [[? ?]|?]; [left; reflexivity | now right].
  - unfold post_logs_route.
    destruct (negb _); [now right|].
    destruct (jget "date" body); [|now right].
    destruct (jget "exercises" body); [|now right].
    destruct (jget "workoutId" body); [|now right].
    destruct (new_date _); [|now right]. destruct (parse_int _); [|now right].
    destruct (workoutLog_create _ _ _ _ _) as [[? ?]|?]; [left; reflexivity | now right].
  - unfold delete_workout_tx_route.
    destruct (parse_int id); [|now right]. destruct (negb _); [now right|].
    destruct (workout_delete _ _); [left; reflexivity | now right].
  - unfold update_exercise_route.
    destruct (exerciseSchema_parse body); [|now right].
    destruct (parse_int id); [|now right]. destruct (negb _); [now right|].
    destruct (exercise_update _ _ _ _) as [[? ?]|?]; [left; reflexivity | now right].
  - unfold delete_exercise_route.
    destruct (parse_int id); [|now right]. destruct (negb _); [now right|].
    destruct (exercise_delete _ _); [left; reflexivity | now right].
  - unfold register_route.
    destruct (registerSchema_parse _ _) as [[[e p] n]|]; [|now right].
    destruct (user_by_email _ _); [now right|].
    destruct (user_create _ _ _ _) as [[? ?]|]; [left; reflexivity | now right].
Qed.

(* ------------------------------------------------------------------ *)
(** ** Deleting a workout *)

Lemma existsb_filter_out {A : Type} (f : A -> Z) (k : Z) (l : list A) :
  existsb (fun x => f x =? k) (filter (fun x => negb (f x =? k)) l) = false.
Proof.
  induction l as [|a l IH]; simpl; [reflexivity|].
  destruct (f a =? k) eqn:E; simpl; [exact IH|]. now rewrite E.
Qed.

(** X9: the [DELETE /:id] of workouts.ts checks no owner: for any caller,
    a workout that no log references is deleted with 200, together with
    its exercises, and nothing else changes. *)
Theorem delete_workout_any_caller (st : db) (uid : Z) (id : string) (wid : Z) :
  parse_int id = Num wid -> workout_exists st wid = true ->
  existsb (fun l => WorkoutLog.workoutId l =? wid) (logs st) = false ->
  exists st', delete_workout_route st uid id = (200, st')
  /\ workouts st' = filter (fun w => negb (Workout.id w =? wid)) (workouts st)
  /\ exercises st' = filter (fun e => negb (Exercise.workoutId e =? wid))
                            (exercises st)
  /\ logs st' = logs st.
Proof.
  intros Hid Hex Hlog. unfold delete_workout_route, workout_delete.
  rewrite Hid. change (workout_exists (exercise_deleteMany wid st) wid)
    with (workout_exists st wid). rewrite Hex.
  cbn [exercise_deleteMany set_exercises exercises logs negb].
  rewrite (existsb_filter_out Exercise.workoutId), Hlog. simpl.
  eexists. repeat split.
Qed.

(** User 2 deletes user 1's workout. *)
Lemma delete_workout_any_caller_witness :
  parse_int "1" = Num 1 /\ workout_exists (push_db []) 1 = true
  /\ existsb (fun l => WorkoutLog.workoutId l =? 1) (logs (push_db [])) = false
  /\ Workout.userId friday_push = 1
  /\ exists st', delete_workout_route (push_db []) 2 "1" = (200, st')
  /\ workouts st' = filter (fun w => negb (Workout.id w =? 1))
                           (workouts (push_db []))
  /\ exercises st' = filter (fun e => negb (Exercise.workoutId e =? 1))
                            (exercises (push_db []))
  /\ logs st' = logs (push_db []).
Proof.
  split; [reflexivity|]. split; [reflexivity|]. split; [reflexivity|].
  split; [reflexivity|].
  apply delete_workout_any_caller; reflexivity.
Defined.



(* ------------------------------------------------------------------ *)
(** ** Logging routes *)

Lemma json_column_some (v : option jval) (x : jval) :
  json_column v = Some x -> v = Some x.
Proof. destruct v as [[]|]; simpl; congruence. Qed.

Lemma workoutLog_create_row (st st' : db) (uid wid t : Z) (ex : jval)
  (l : WorkoutLog.t) :
  workoutLog_create st uid wid t ex = POk (st', l) ->
  l = {| WorkoutLog.id := next_log_id st; WorkoutLog.userId := uid;
         WorkoutLog.workoutId := wid; WorkoutLog.date := t;
         WorkoutLog.exercises := ex |}
  /\ logs st' = logs st ++ [l].
Proof.
  unfold workoutLog_create. destruct (negb _); [discriminate|].
  intros H. injection H as <- <-. split; reflexivity.
Qed.

(** X13: the row a logging route creates belongs to the caller, stores the
    request's [exercises] value as sent, takes the next log id and is
    appended to the table; [POST /logs] takes its date and workout from the
    body. *)
Theorem log_routes_created_row (st : db) (uid : Z) :
  (forall now id body code st' l,
      log_workout_route now st uid id body = (code, st', Some l) ->
      code = 200 /\ WorkoutLog.userId l = uid
      /\ jget "exercises" body = Some (WorkoutLog.exercises l)
      /\ parse_int id = Num (WorkoutLog.workoutId l)
      /\ WorkoutLog.id l = next_log_id st /\ logs st' = logs st ++ [l])
  /\ (forall new_date body code st' l,
      post_logs_route new_date st uid body = (code, st', Some l) ->
      code = 200 /\ WorkoutLog.userId l = uid
      /\ jget "exercises" body = Some (WorkoutLog.exercises l)
      /\ (exists dv wv, jget "date" body = Some dv
                        /\ new_date dv = Some (WorkoutLog.date l)
                        /\ jget "workoutId" body = Some wv
                        /\ parse_int (js_string_of wv) = Num (WorkoutLog.workoutId l))
      /\ WorkoutLog.id l = next_log_id st /\ logs st' = logs st ++ [l]).
Proof.
  split.
  - intros now id body code st' l H. unfold log_workout_route in H.
    destruct (parse_int id) as [wid|] eqn:Hid; [|discriminate].
    destruct (json_column _) as [ex|] eqn:Hex; [|discriminate].
    destruct (workoutLog_create st uid wid now ex) as [[st1 l1]|e] eqn:Hc;
      [|discriminate].
    injection H as <- <- <-.
    destruct (workoutLog_create_row _ _ _ _ _ _ _ Hc) as [-> Hlogs].
    apply json_column_some in Hex. repeat split; auto.
  - intros new_date body code st' l H. unfold post_logs_route in H.
    destruct (negb _); [discriminate|].
    destruct (jget "date" body) as [dv|] eqn:Hd; [|discriminate].
    destruct (jget "exercises" body) as [ex|] eqn:He; [|discriminate].
    destruct (jget "workoutId" body) as [wv|] eqn:Hw; [|discriminate].
    destruct (new_date dv) as [t|] eqn:Ht; [|discriminate].
    destruct (parse_int (js_string_of wv)) as [wid|] eqn:Hwid; [|discriminate].
    destruct (workoutLog_create st uid wid t ex) as [[st1 l1]|e] eqn:Hc;
      [|discriminate].
    injection H as <- <- <-.
    destruct (workoutLog_create_row _ _ _ _ _ _ _ Hc) as [-> Hlogs].
    repeat split; auto. exists dv, wv. auto.
Qed.

(** X14: [POST /logs] answers 400 exactly when [date], [exercises] or
    [workoutId] is missing or falsy, and then creates nothing. *)
Theorem post_logs_bad_request (new_date : jval -> option Z) (st : db) (uid : Z)
  (body : jval) :
  (fst (fst (post_logs_route new_date st uid body)) = 400
   <-> truthy (jget "date" body) && truthy (jget "exercises" body)
       && truthy (jget "workoutId" body) = false)
  /\ (fst (fst (post_logs_route new_date st uid body)) = 400 ->
      post_logs_route new_date st uid body = (400, st, None)).
Proof.
  unfold post_logs_route.
  destruct (truthy (jget "date" body) && truthy (jget "exercises" body)
            && truthy (jget "workoutId" body)) eqn:T; simpl.
  - apply andb_true_iff in T as [T Tw]. apply andb_true_iff in T as [Td Te].
    destruct (jget "date" body) as [dv|]; [|discriminate].
    destruct (jget "exercises" body) as [ex|]; [|discriminate].
    destruct (jget "workoutId" body) as [wv|]; [|discriminate].
    destruct (new_date dv) as [t|]; [|split; [split; discriminate | discriminate]].
    destruct (parse_int _) as [wid|]; [|split; [split; discriminate | discriminate]].
    destruct (workoutLog_create _ _ _ _ _) as [[? ?]|?];
      split; [split; discriminate | discriminate | split; discriminate | discriminate].
  - split; [split; reflexivity | reflexivity].
Qed.

(* ------------------------------------------------------------------ *)
(** ** Exercise router *)





(* ------------------------------------------------------------------ *)
(** ** [POST /] of auth.ts *)

(** X17: the [POST /] of auth.ts never creates a workout: its Prisma call
    omits the required [category], so every body is answered with 400 or
    500 and the database is left unchanged. *)
Theorem create_workout_v1_never_creates (prisma_int : number -> bool) (st : db)
  (uid : Z) (body : jval) :
  create_ok (fst (create_workout_v1_route prisma_int st uid body)) = false
  /\ snd (create_workout_v1_route prisma_int st uid body) = st.
Proof.
  unfold create_workout_v1_route.
  destruct (workoutSchema_v1_parse body); split; reflexivity.
Qed.

(* ------------------------------------------------------------------ *)
(** ** Registration and login *)





Lemma user_by_email_none (us : user_db) (e : string) :
  user_by_email us e = None -> ~ In e (map User.email (users us)).
Proof.
  intros H Hin. apply in_map_iff in Hin as (u & Hu & Hin).
  pose proof (find_none _ _ H u Hin) as Hf. simpl in Hf.
  rewrite Hu, String.eqb_refl in Hf. discriminate.
Qed.


(** X18: [POST /register] keeps the [@unique] emails unique. *)
Theorem register_keeps_emails_unique (is_email : string -> bool)
  (bcrypt_hash : Z -> string -> string) (jwt_sign : Z -> string -> string)
  (us : user_db) (salt : Z) (body : jval) :
  NoDup (map User.email (users us)) ->
  NoDup (map User.email
           (users (snd (register_route is_email bcrypt_hash jwt_sign us salt body)))).
Proof.
  intros H. unfold register_route.
  destruct (registerSchema_parse is_email body) as [[[e p] n]|]; [|exact H].
  destruct (user_by_email us e) eqn:F; [exact H|].
  unfold user_create. rewrite F. simpl.
  rewrite map_app. apply nodup_app_disjoint; [exact H | repeat constructor; intros []|].
  intros a Ha [<-|[]]. exact (user_by_email_none _ _ F Ha).
Qed.

(** A sample of the injected functions. *)
Definition sample_is_email (s : string) : bool := str_contains s "@".
Definition sample_hash (salt : Z) (p : string) : string :=
  append "$2a$10$" (append (decimal_string salt) (append "$" p)).
Definition sample_compare (p h : string) : bool :=
  str_contains h (append "$" p).
Definition sample_sign (id : Z) (email : string) : string :=
  append (decimal_string id) (append "." email).

Definition ana_body : jval :=
  JObj [("email", JStr "ana@example.com"); ("password", JStr "secret1");
        ("name", JStr "Ana")].

Definition no_users : user_db := {| users := []; next_user_id := 1 |}.

Lemma register_keeps_emails_unique_witness :
  NoDup (map User.email (users no_users))
  /\ NoDup (map User.email
              (users (snd (register_route sample_is_email sample_hash sample_sign
                             no_users 7 ana_body)))).
Proof.
  split; [constructor|].
  apply register_keeps_emails_unique. constructor.
Defined.

(** [POST /register] on a body that passes [registerSchema]. *)
Lemma register_route_valid (is_email : string -> bool)
  (bcrypt_hash : Z -> string -> string) (jwt_sign : Z -> string -> string)
  (us : user_db) (salt : Z) (body : jval) (e p n : string) :
  registerSchema_parse is_email body = ZOk (e, p, n) ->
  (forall u, user_by_email us e = Some u ->
     register_route is_email bcrypt_hash jwt_sign us salt body
     = (AuthRejected "Email already registered", us))
  /\ (user_by_email us e = None ->
      register_route is_email bcrypt_hash jwt_sign us salt body
      = (AuthOk (jwt_sign (next_user_id us) e) (next_user_id us) e n,
         {| users := users us ++ [{| User.id := next_user_id us; User.email := e;
                                     User.name := n;
                                     User.password := bcrypt_hash salt p |}];
            next_user_id := next_user_id us + 1 |})).
Proof.
  intros Hp. unfold register_route. rewrite Hp. split.
  - intros u ->. reflexivity.
  - intros F. rewrite F. unfold user_create. rewrite F. reflexivity.
Qed.

(** X19: [POST /register] with a valid body answers 400 "Email already
    registered" with nothing changed when the email is taken, and otherwise
    stores one user with the next id and the bcrypt hash of the password,
    answering with a token signed for that id and email. *)
Theorem register_outcome (is_email : string -> bool)
  (bcrypt_hash : Z -> string -> string) (jwt_sign : Z -> string -> string)
  (us : user_db) (salt : Z) (body : jval) (e p n : string) :
  registerSchema_parse is_email body = ZOk (e, p, n) ->
  (forall u, user_by_email us e = Some u ->
     register_route is_email bcrypt_hash jwt_sign us salt body
     = (AuthRejected "Email already registered", us))
  /\ (user_by_email us e = None ->
      register_route is_email bcrypt_hash jwt_sign us salt body
      = (AuthOk (jwt_sign (next_user_id us) e) (next_user_id us) e n,
         {| users := users us ++ [{| User.id := next_user_id us; User.email := e;
                                     User.name := n;
                                     User.password := bcrypt_hash salt p |}];
            next_user_id := next_user_id us + 1 |})).
Proof. apply register_route_valid. Qed.

Lemma register_outcome_witness :
  registerSchema_parse sample_is_email ana_body
    = ZOk ("ana@example.com", "secret1", "Ana")
  /\ (forall u, user_by_email no_users "ana@example.com" = Some u ->
      register_route sample_is_email sample_hash sample_sign no_users 7 ana_body
      = (AuthRejected "Email already registered", no_users))
  /\ (user_by_email no_users "ana@example.com" = None ->
      register_route sample_is_email sample_hash sample_sign no_users 7 ana_body
      = (AuthOk (sample_sign 1 "ana@example.com") 1 "ana@example.com" "Ana",
         {| users := [{| User.id := 1; User.email := "ana@example.com";
                         User.name := "Ana";
                         User.password := sample_hash 7 "secret1" |}];
            next_user_id := 2 |})).
Proof.
  split; [reflexivity|].
  exact (register_outcome sample_is_email sample_hash sample_sign no_users 7
           ana_body "ana@example.com" "secret1" "Ana" eq_refl).
Defined.

(** X20: [POST /login] with a valid body gives the same 400
    "Invalid credentials" for an unknown email as for a wrong password, and
    otherwise the token of the stored user. *)
Theorem login_no_enumeration (is_email : string -> bool)
  (bcrypt_compare : string -> string -> bool) (jwt_sign : Z -> string -> string)
  (us : user_db) (body : jval) (e p : string) :
  loginSchema_parse is_email body = ZOk (e, p) ->
  (user_by_email us e = None ->
   login_route is_email bcrypt_compare jwt_sign us body
   = AuthRejected "Invalid credentials")
  /\ (forall u, user_by_email us e = Some u ->
      bcrypt_compare p (User.password u) = false ->
      login_route is_email bcrypt_compare jwt_sign us body
      = AuthRejected "Invalid credentials")
  /\ (forall u, user_by_email us e = Some u ->
      bcrypt_compare p (User.password u) = true ->
      In u (users us) /\ User.email u = e
      /\ login_route is_email bcrypt_compare jwt_sign us body
         = AuthOk (jwt_sign (User.id u) e) (User.id u) e (User.name u)).
Proof.
  intros Hp. unfold login_route. rewrite Hp. split; [|split].
  - intros ->. reflexivity.
  - intros u -> ->. reflexivity.
  - intros u F Hc. rewrite F, Hc.
    unfold user_by_email in F. apply find_some in F as [Fin Fe].
    apply String.eqb_eq in Fe. subst e. auto.
Qed.

Lemma login_no_enumeration_witness :
  loginSchema_parse sample_is_email ana_body = ZOk ("ana@example.com", "secret1")
  /\ (user_by_email no_users "ana@example.com" = None ->
      login_route sample_is_email sample_compare sample_sign no_users ana_body
      = AuthRejected "Invalid credentials").
Proof.
  split; [reflexivity|].
  exact (proj1 (login_no_enumeration sample_is_email sample_compare sample_sign
                  no_users ana_body "ana@example.com" "secret1" eq_refl)).
Defined.



(* ------------------------------------------------------------------ *)
(** ** Calendar arithmetic and [GET /week/:date] without daylight time *)

Lemma civil_year_bounds (doe : Z) : 0 <= doe < 146097 ->
  let yoe := (doe - doe / 1460 + doe / 36524 - doe / 146096) / 365 in
  0 <= yoe <= 399 /\ 0 <= doe - (365 * yoe + yoe / 4 - yoe / 100) <= 365.
Proof.
  intros H yoe. subst yoe. Z.div_mod_to_equations. lia.
Qed.

(** [days_from_civil] inverts [civil_from_days]. *)
Lemma days_from_civil_of_days (n : Z) :
  let '(y, m, d) := civil_from_days n in days_from_civil y m d = n.
Proof.
  unfold civil_from_days. cbv zeta.
  set (era := (n + 719468) / 146097).
  set (doe := n + 719468 - era * 146097).
  assert (Hdoe : 0 <= doe < 146097).
  { unfold doe, era. pose proof (Z.div_mod (n + 719468) 146097).
    pose proof (Z.mod_pos_bound (n + 719468) 146097). lia. }
  destruct (civil_year_bounds doe Hdoe) as [Hyoe Hdoy].
  set (yoe := (doe - doe / 1460 + doe / 36524 - doe / 146096) / 365) in *.
  set (doy := doe - (365 * yoe + yoe / 4 - yoe / 100)) in *.
  set (mp := (5 * doy + 2) / 153).
  assert (Hmp : 0 <= mp <= 11) by (unfold mp; Z.div_mod_to_equations; lia).
  unfold days_from_civil. cbv zeta.
  destruct (Z.ltb_spec mp 10) as [Hlt|Hge].
  - replace (mp + 3 <=? 2) with false by (symmetry; apply Z.leb_gt; lia).
    replace ((mp + 3 + 9) mod 12) with mp
      by (replace (mp + 3 + 9) with (mp + 1 * 12) by ring;
          rewrite Z.mod_add by lia; rewrite Z.mod_small; lia).
    replace ((yoe + era * 400) / 400) with era
      by (rewrite Z.div_add by lia; rewrite Z.div_small by lia; ring).
    replace (yoe + era * 400 - era * 400) with yoe by ring.
    unfold doy in *. unfold doe in *. ring.
  - replace (mp - 9 <=? 2) with true by (symmetry; apply Z.leb_le; lia).
    replace ((mp - 9 + 9) mod 12) with mp
      by (replace (mp - 9 + 9) with mp by ring; rewrite Z.mod_small; lia).
    replace (yoe + era * 400 + 1 - 1) with (yoe + era * 400) by ring.
    replace ((yoe + era * 400) / 400) with era
      by (rewrite Z.div_add by lia; rewrite Z.div_small by lia; ring).
    replace (yoe + era * 400 - era * 400) with yoe by ring.
    unfold doy in *. unfold doe in *. ring.
Qed.

(** [days_from_civil] is linear in the day of month. *)
Lemma days_from_civil_day (y m d : Z) :
  days_from_civil y m d = days_from_civil y m 1 + (d - 1).
Proof. unfold days_from_civil. cbv zeta. ring. Qed.

Lemma local_time_fixed (z : zone) (t : Z) :
  dst_start z = dst_end z -> local_time z t = t + std_off z.
Proof.
  intros Hz. unfold local_time, offset_at. rewrite Hz.
  replace ((dst_end z <=? t) && (t <? dst_end z)) with false; [reflexivity|].
  destruct (Z.leb_spec (dst_end z) t); destruct (Z.ltb_spec t (dst_end z));
    simpl; lia.
Qed.

Lemma utc_of_local_fixed (z : zone) (l : Z) :
  dst_start z = dst_end z -> utc_of_local z l = l - std_off z.
Proof.
  intros Hz. unfold utc_of_local.
  replace (offset_at z (l - dst_off z)) with (std_off z)
    by (pose proof (local_time_fixed z (l - dst_off z) Hz) as H;
        unfold local_time in H; lia).
  destruct (Z.eqb_spec (std_off z) (dst_off z)); [lia | reflexivity].
Qed.

(** [date.setDate(date.getDate() + i)] on a UTC midnight, in a zone
    without daylight time, moves the date [i] days ahead. *)
Lemma setDate_fixed (z : zone) (D i : Z) :
  dst_start z = dst_end z ->
  setDate z (D * ms_per_day) (getDate z (D * ms_per_day) + i)
  = (D + i) * ms_per_day.
Proof.
  intros Hz. unfold setDate, getDate. rewrite !local_time_fixed by exact Hz.
  assert (Hday : day_of (D * ms_per_day + std_off z)
                 = D + std_off z / ms_per_day).
  { unfold day_of. rewrite Z.add_comm, Z.div_add by (unfold ms_per_day; lia).
    ring. }
  rewrite Hday.
  pose proof (days_from_civil_of_days (D + std_off z / ms_per_day)) as R.
  destruct (civil_from_days (D + std_off z / ms_per_day)) as [[y1 m1] d0].
  rewrite days_from_civil_day in R.
  rewrite utc_of_local_fixed by exact Hz. unfold time_within_day.
  pose proof (Z.div_mod (D * ms_per_day + std_off z) ms_per_day) as Hdm.
  unfold day_of in Hday. rewrite Hday in Hdm.
  assert (Hms : ms_per_day <> 0) by (unfold ms_per_day; lia).
  nia.
Qed.

Lemma setUTCHours_midnight (D : Z) :
  setUTCHours (D * ms_per_day) 0 0 0 0 = D * ms_per_day.
Proof.
  unfold setUTCHours, day_of. rewrite Z.div_mul by (unfold ms_per_day; lia).
  ring.
Qed.

(** X22: on a server whose zone has no daylight time, [GET /week/:date]
    lists the seven consecutive calendar dates from the requested one,
    each resolved with the weekday of its UTC midnight read in server
    local time. *)
Theorem week_route_fixed_offset (z : zone) (st : db) (uid y m d : Z) :
  dst_start z = dst_end z ->
  week_route z st uid y m d
  = map (fun i => day_entry_for st uid
                    (week_day (date_of_iso y m d + i * ms_per_day + std_off z))
                    (civil_from_days (days_from_civil y m d + i)))
        (map Z.of_nat (seq 0 7)).
Proof.
  intros Hz. unfold week_route, date_of_iso. rewrite setUTCHours_midnight.
  apply map_ext. intros i. rewrite setDate_fixed by exact Hz.
  unfold getDay, iso_date. rewrite local_time_fixed by exact Hz.
  unfold day_of. rewrite Z.div_mul by (unfold ms_per_day; lia).
  f_equal. f_equal. ring.
Qed.

Lemma week_route_fixed_offset_witness :
  dst_start sao_paulo = dst_end sao_paulo
  /\ week_route sao_paulo (push_db []) 1 2024 3 11
     = map (fun i => day_entry_for (push_db []) 1
                       (week_day (date_of_iso 2024 3 11 + i * ms_per_day
                                  + std_off sao_paulo))
                       (civil_from_days (days_from_civil 2024 3 11 + i)))
           (map Z.of_nat (seq 0 7)).
Proof.
  split; [reflexivity|]. apply week_route_fixed_offset. reflexivity.
Defined.
